(** * The discharge engine and HTTP shell of the identity server

    A shallow embedding of [internal/v1/discharge.go] (the third-party
    caveat checker, the [/v1/wait] handler and the discharge-token
    endpoint) and of the routing fallbacks of the server shell
    ([notFound], [methodNotAllowed]).

    The handlers talk to collaborators whose code lives elsewhere: the
    identity store, the rendezvous place, the bakery oven, the caveat
    namespace and the HTTP router.  They are taken here as an interface
    ([Services]) over an abstract world; every theorem about a handler
    holds for all implementations of that interface.  Module [Mem] gives
    one in-memory implementation on which the handlers are run. *)

From Stdlib Require Import String Ascii ZArith List Bool Lia.
From stdpp Require Import base option gmap strings list pretty.

Local Open Scope Z_scope.
Local Open Scope string_scope.

(** ** Errors: the [errgo] discipline *)

Module errgo.

(** The error values that flow through the handlers.  [ErrorCode] is
    [params.ErrorCode] (a string-typed error); [Err] is [errgo.Err], a
    message with an underlying error and an optional cause;
    [InteractionRequiredError] is the [httpbakery.Error] built by
    [httpbakery.NewInteractionRequiredError]; [Other] stands for the
    errors of collaborators that carry no code. *)
#[warnings="-register-all"]
Inductive error : Type :=
| ErrorCode (code : string)
| ErrCaveatNotRecognized
| Other (msg : string)
| Err (Message : string) (Underlying : option error) (Cause_ : option error)
| InteractionRequiredError (visitURL waitURL : string) (why : error)
    (version : nat).

(** [errgo.Cause]: the recorded cause if there is one, else the error
    itself. *)
Definition Cause (err : error) : error :=
  match err with
  | Err _ _ (Some c) => c
  | _ => err
  end.

(** [errgo.Is(e0)]: Go's [==] on the interface values.  The errors the
    handlers pass to it are values ([params.ErrorCode] strings and the
    checkers' sentinel); an [errgo.Err] or an [httpbakery.Error] is a
    pointer and equals no value built elsewhere. *)
Definition Is (e0 err : error) : bool :=
  match e0, err with
  | ErrorCode c0, ErrorCode c => String.eqb c0 c
  | ErrCaveatNotRecognized, ErrCaveatNotRecognized => true
  | _, _ => false
  end.

(** [errgo.Any]. *)
Definition Any (_ : error) : bool := true.

(** [errgo.NoteMask(underlying, msg, pass...)]: the cause survives only
    if one of the [pass] functions accepts it. *)
Definition NoteMask (underlying : error) (msg : string)
    (pass : list (error -> bool)) : error :=
  let cause := Cause underlying in
  Err msg (Some underlying)
      (if existsb (fun p => p cause) pass then Some cause else None).

(** [errgo.Mask(underlying, pass...)], called on a non-nil error. *)
Definition Mask (underlying : error) (pass : list (error -> bool)) : error :=
  NoteMask underlying "" pass.

(** [errgo.Notef(underlying, msg)]: the cause is always masked. *)
Definition Notef (underlying : error) (msg : string) : error :=
  NoteMask underlying msg [].

(** [errgo.WithCausef(underlying, cause, msg)]. *)
Definition WithCausef (underlying : option error) (cause : error)
    (msg : string) : error :=
  Err msg underlying (Some cause).

(** [errgo.Newf(msg)]. *)
Definition Newf (msg : string) : error := Err msg None None.

(** The code an error response is given: the cause, when it is a
    [params.ErrorCode]. *)
Definition errorCode (err : error) : option string :=
  match Cause err with
  | ErrorCode c => Some c
  | _ => None
  end.

End errgo.
Export errgo.

(** ** [params] error codes *)

Module params.
Definition ErrNotFound : error := ErrorCode "not found".
Definition ErrBadRequest : error := ErrorCode "bad request".
Definition ErrForbidden : error := ErrorCode "forbidden".
Definition ErrMethodNotAllowed : error := ErrorCode "method not allowed".
End params.

(** ** Data *)

(** [time.Time] and [time.Duration] in nanoseconds. *)
Definition Hour : Z := 3600 * 1000000000.

(** [dischargeTokenDuration = 6 * time.Hour]. *)
Definition dischargeTokenDuration : Z := 6 * Hour.

(** [bakery.Op]. *)
Record Op : Type := mkOp { Entity : string; Action : string }.

(** [bakery.LoginOp]. *)
Definition LoginOp : Op := mkOp "login" "login".

(** [checkers.Caveat], by the constructor that built it:
    [checkers.DeclaredCaveat], [checkers.TimeBeforeCaveat] and
    [httpbakery.ClientOriginCaveat]. *)
Inductive Caveat : Type :=
| DeclaredCaveat (key value : string)
| TimeBeforeCaveat (t : Z)
| ClientOriginCaveat (origin : string).

(** [idmclient.UserDeclaration]. *)
Definition UserDeclaration (user : string) : Caveat :=
  DeclaredCaveat "username" user.

(** [macaroon.Macaroon]: the identifier and the conditions of the
    first-party caveats, in the order they were added. *)
Record Macaroon : Type := mkMacaroon {
  macId : string;
  macCaveats : list string
}.

(** [bakery.Macaroon], as minted by the oven or by [bakery.Discharge]. *)
Record BakeryMacaroon : Type := mkBakeryMacaroon {
  bmVersion : nat;
  bmOps : list Op;
  bmCaveats : list Caveat
}.

(** [bakery.ThirdPartyCaveatInfo], the fields the checker reads. *)
Record ThirdPartyCaveatInfo : Type := mkCaveatInfo {
  ciCaveat : string;
  ciId : string;
  ciCondition : string
}.

(** [dischargeRequestInfo], what a rendezvous is created with. *)
Record dischargeRequestInfo : Type := mkRequestInfo {
  riCaveat : string;
  riCaveatId : string;
  riCondition : string;
  riOrigin : string
}.

(** [loginInfo], what the login path completes a rendezvous with. *)
Record loginInfo : Type := mkLoginInfo {
  IdentityMacaroon : list Macaroon;
  Error : option error
}.

(** [http.Cookie] carrying a macaroon slice. *)
Record Cookie : Type := mkCookie {
  cookieName : string;
  cookiePath : string;
  cookieValue : list Macaroon
}.

(** [http.Request]: the parts the handlers read or write.  [url.Values]
    and [http.Header] map a key to a list of values. *)
Record Request : Type := mkRequest {
  Method : string;
  URLPath : string;
  Form : gmap string (list string);
  Header : gmap string (list string);
  Cookies : list Cookie;
  BakeryVersion : nat
}.

(** [url.Values.Get] and [http.Header.Get]: the first value, or the
    empty string. *)
Definition Values_Get (v : gmap string (list string)) (key : string) : string :=
  match v !! key with
  | Some (x :: _) => x
  | _ => ""
  end.

(** [req.AddCookie]. *)
Definition AddCookie (req : Request) (c : Cookie) : Request :=
  mkRequest (Method req) (URLPath req) (Form req) (Header req)
            (Cookies req ++ [c]) (BakeryVersion req).

(** [httpbakery.RequestVersion]. *)
Definition RequestVersion (req : Request) : nat := BakeryVersion req.

(** [httpbakery.NewInteractionRequiredError]. *)
Definition NewInteractionRequiredError (visitURL waitURL : string)
    (why : error) (req : Request) : error :=
  InteractionRequiredError visitURL waitURL why (RequestVersion req).

(** The mutation [updateDischargeTime] sends to the store:
    [{"$set": {"lastdischarge": t}}]. *)
Inductive Update : Type :=
| SetLastDischarge (t : Z).

(** What the handlers write to the log. *)
Inductive LogEntry : Type :=
| LogAuthorized (op : Op) (id : string)
| LogUpdateFailed (err : error).

(** [strings.Fields] on ASCII text: the maximal runs of characters that
    are not white space (space, [\t], [\n], [\v], [\f], [\r]). *)
Definition isSpace (c : ascii) : bool :=
  let n := nat_of_ascii c in
  (Nat.eqb n 32 || (Nat.leb 9 n && Nat.leb n 13))%bool.

Fixpoint Fields_from (cur : option string) (s : string) : list string :=
  match s with
  | EmptyString =>
      match cur with Some w => [w] | None => [] end
  | String c rest =>
      if isSpace c then
        match cur with
        | Some w => w :: Fields_from None rest
        | None => Fields_from None rest
        end
      else
        Fields_from (Some (match cur with
                           | Some w => w +:+ String c EmptyString
                           | None => String c EmptyString
                           end)) rest
  end.

Definition Fields (s : string) : list string := Fields_from None s.

(** [%q] of [fmt.Sprintf], on text that needs no escaping. *)
Definition quoted (s : string) : string :=
  String (ascii_of_nat 34) (s +:+ String (ascii_of_nat 34) EmptyString).

(** ** Outcomes and the handler monad *)

(** A Go call returns a value, returns an error, or panics. *)
Inductive Outcome (A : Type) : Type :=
| Ok (a : A)
| Fail (err : error)
| Panic (msg : string).
Arguments Ok {A} a.
Arguments Fail {A} err.
Arguments Panic {A} msg.

(** The error code of a failed call. *)
Definition errorCode_of_outcome {A} (o : Outcome A) : option string :=
  match o with
  | Fail err => errorCode err
  | _ => None
  end.

(** What a handler can change: the world of the collaborators (store,
    place, oven), the log, and the cookies set on the response. *)
Record State (W : Type) : Type := mkState {
  world : W;
  log : list LogEntry;
  respCookies : list Cookie
}.
Arguments mkState {W} world log respCookies.
Arguments world {W} s.
Arguments log {W} s.
Arguments respCookies {W} s.

Definition M (W A : Type) : Type := State W -> Outcome A * State W.

Definition ret {W A} (a : A) : M W A := fun s => (Ok a, s).

Definition fail {W A} (err : error) : M W A := fun s => (Fail err, s).

Definition panic {W A} (msg : string) : M W A := fun s => (Panic msg, s).

Definition bind {W A B} (c : M W A) (k : A -> M W B) : M W B :=
  fun s =>
    match c s with
    | (Ok a, s') => k a s'
    | (Fail err, s') => (Fail err, s')
    | (Panic msg, s') => (Panic msg, s')
    end.

(** [x, err := c; if err != nil { return f(err) }]. *)
Definition orReturn {W A} (c : M W A) (f : error -> error) : M W A :=
  fun s =>
    match c s with
    | (Fail err, s') => (Fail (f err), s')
    | r => r
    end.

(** A read of the world. *)
Definition reads {W A} (f : W -> A) : M W A := fun s => (Ok (f (world s)), s).

(** A call that may change the world. *)
Definition calls {W A} (f : W -> A * W) : M W A :=
  fun s =>
    let (a, w') := f (world s) in
    (Ok a, mkState w' (log s) (respCookies s)).

(** [logger.Infof]. *)
Definition Infof {W} (e : LogEntry) : M W unit :=
  fun s => (Ok tt, mkState (world s) (log s ++ [e]) (respCookies s)).

(** [http.SetCookie] on the response of the request being served. *)
Definition SetCookie {W} (c : Cookie) : M W unit :=
  fun s => (Ok tt, mkState (world s) (log s) (respCookies s ++ [c])).

Declare Scope go_scope.
Delimit Scope go_scope with go.
Notation "x <- c ;; k" := (bind c (fun x => k))
  (at level 100, c at next level, right associativity) : go_scope.
Notation "c ;;; k" := (bind c (fun _ => k))
  (at level 100, right associativity) : go_scope.
Local Open Scope go_scope.

(** ** The collaborators *)

(** [bakery.Identity]; [Allow] is present when the value also
    implements [bakery.ACLIdentity].  A membership check reads the
    world (the store and the group resolver). *)
Record Identity (W : Type) : Type := mkIdentity {
  Id : string;
  Allow : option (list string -> W -> error + bool)
}.
Arguments mkIdentity {W} Id Allow.
Arguments Id {W} i.
Arguments Allow {W} i.

(** What [store.Authorize] returns on success. *)
Record AuthInfo (W : Type) : Type := mkAuthInfo {
  aiIdentity : Identity W
}.
Arguments mkAuthInfo {W} aiIdentity.
Arguments aiIdentity {W} a.

(** The store, the rendezvous place, the oven and the library calls of
    the handlers whose results the handlers only pass on. *)
Class Services (W : Type) : Type := {
  (** [h.store.Authorize(ctx, req, op)] *)
  store_Authorize : Request -> Op -> W -> error + AuthInfo W;
  (** [h.store.GetIdentity(username)]; the handlers drop the document
      and keep the error, [None] when the identity exists *)
  store_GetIdentity : string -> W -> option error;
  (** [h.store.UpdateIdentity(username, update)] *)
  store_UpdateIdentity : string -> Update -> W -> option error * W;
  (** [store.Identity(username)] *)
  store_Identity : string -> Identity W;
  (** [store.GlobalOp(action)] and [store.ActionDischargeFor] *)
  store_GlobalOp : string -> Op;
  store_ActionDischargeFor : string;
  (** [h.place.NewRendezvous(info)] and [h.place.Wait(waitId)] *)
  place_NewRendezvous : dischargeRequestInfo -> W -> (error + string) * W;
  place_Wait : string -> W -> (error + dischargeRequestInfo * loginInfo) * W;
  (** [h.serviceURL(path)] *)
  serviceURL : string -> string;
  (** [checkers.ParseCaveat(condition)]: the name and the arguments *)
  checkers_ParseCaveat : string -> error + string * string;
  (** [h.store.Bakery.Checker.Namespace().ResolveCaveat(cav)] and the
      [Condition] field of a caveat *)
  Namespace_ResolveCaveat : Caveat -> Caveat;
  Caveat_Condition : Caveat -> string;
  (** the error of [Macaroon.AddFirstPartyCaveat], if any *)
  Macaroon_addCaveatError : Macaroon -> string -> option error;
  (** the error of [httpbakery.NewCookie], if any, and the name it
      gives the cookie *)
  NewCookie_error : list Macaroon -> option error;
  NewCookie_name : list Macaroon -> string;
  (** the error of [Oven.NewMacaroon], if any, and its effect on the
      root-key store; [Oven.Key] *)
  Oven_mint : nat -> Z -> list Caveat -> list Op -> W -> option error * W;
  Oven_Key : string;
  (** [bakery.Discharge] with [Id], [Caveat], [Key] and [Checker] *)
  bakery_Discharge :
    string -> string -> string ->
    (ThirdPartyCaveatInfo -> M W (list Caveat)) -> M W BakeryMacaroon;
  (** [time.Now()] *)
  time_Now : W -> Z
}.

(** ** The handlers of [discharge.go] *)

Section Discharge.
Context {W : Type} `{Services W}.

(** The operation for a delegated discharge,
    [store.GlobalOp(store.ActionDischargeFor)]. *)
Definition DischargeForOp : Op := store_GlobalOp store_ActionDischargeFor.

(** Modelled from the spec: [Macaroon.AddFirstPartyCaveat] of the
    macaroon library, which is not part of the sources; section 4.7:
    the caveat is appended to the first-party caveats of the
    macaroon. *)
Definition AddFirstPartyCaveat (m : Macaroon) (condition : string)
    : error + Macaroon :=
  match Macaroon_addCaveatError m condition with
  | Some err => inl err
  | None => inr (mkMacaroon (macId m) (macCaveats m ++ [condition]))
  end.

(** Modelled from the spec: [httpbakery.NewCookie(ns, ms)] of the bakery
    library, which is not part of the sources; section 6: the cookie
    holds the macaroon sequence. *)
Definition NewCookie (ms : list Macaroon) : error + Cookie :=
  match NewCookie_error ms with
  | Some err => inl err
  | None => inr (mkCookie (NewCookie_name ms) "" ms)
  end.

(** Modelled from the spec: [Oven.NewMacaroon(ctx, version, expiry,
    caveats, ops...)] of the bakery library, which is not part of the
    sources; section 4.1: the macaroon is bound to the operations and
    carries [time-before expiry] and the given caveats. *)
Definition Oven_NewMacaroon (version : nat) (expiry : Z)
    (caveats : list Caveat) (ops : list Op) : M W BakeryMacaroon :=
  r <- calls (Oven_mint version expiry caveats ops) ;;
  match r with
  | Some err => fail err
  | None =>
      ret (mkBakeryMacaroon version ops (TimeBeforeCaveat expiry :: caveats))
  end.

(** [updateDischargeTime]: the error of the update is logged and
    dropped. *)
Definition updateDischargeTime (username : string) : M W unit :=
  now <- reads time_Now ;;
  err <- calls (store_UpdateIdentity username (SetLastDischarge now)) ;;
  match err with
  | Some e => Infof (LogUpdateFailed e)
  | None => ret tt
  end.

(** [needLoginError] returns the error for a discharge request that
    can only be satisfied if the user logs in. *)
Definition needLoginError (req : Request) (info : dischargeRequestInfo)
    (why : error) : M W error :=
  r <- calls (place_NewRendezvous info) ;;
  match r with
  | inl err => ret (Notef err "cannot make rendezvous")
  | inr waitId =>
      let visitURL := serviceURL ("/v1/login?waitid=" +:+ waitId) in
      let waitURL := serviceURL ("/v1/wait?waitid=" +:+ waitId) in
      ret (NewInteractionRequiredError visitURL waitURL why req)
  end.

(** The [switch cond] of [checkThirdPartyCaveat] (lines 84 to 106): the
    caveats to put on the discharge, for the identity the discharge is
    made for. *)
Definition dispatchCondition (identity : Identity W)
    (dischargeForUser cond args : string) : M W (list Caveat) :=
  if String.eqb cond "is-authenticated-user" then
    let user :=
      if String.eqb dischargeForUser "" then Id identity
      else dischargeForUser in
    now <- reads time_Now ;;
    ret [UserDeclaration user; TimeBeforeCaveat (now + 24 * Hour)]
  else if String.eqb cond "is-member-of" then
    match Allow identity with
    | None => panic "interface conversion: not a bakery.ACLIdentity"
    | Some allow =>
        r <- reads (allow (Fields args)) ;;
        match r with
        | inl err => fail (Notef err "cannot check group membership")
        | inr false => fail (Newf "user is not a member of required groups")
        | inr true => ret []
        end
    end
  else fail ErrCaveatNotRecognized.

(** [checkThirdPartyCaveat] from [checkers.ParseCaveat] to the end
    (lines 80 to 108): parse the condition, dispatch on its name, then
    record the time of the discharge. *)
Definition checkCondition (identity : Identity W) (dischargeForUser : string)
    (ci : ThirdPartyCaveatInfo) : M W (list Caveat) :=
  match checkers_ParseCaveat (ciCondition ci) with
  | inl err =>
      fail (WithCausef (Some err) params.ErrBadRequest
              ("cannot parse caveat " +:+ quoted (ciCondition ci)))
  | inr (cond, args) =>
      cavs <- dispatchCondition identity dischargeForUser cond args ;;
      (updateDischargeTime (Id identity) ;;;
       ret cavs)
  end.

(** [checkThirdPartyCaveat] checks the given caveat: the authorization
    and the substitution of the identity (lines 57 to 79), then
    [checkCondition]. *)
Definition checkThirdPartyCaveat (req : Request) (ci : ThirdPartyCaveatInfo)
    : M W (list Caveat) :=
  let dischargeForUser := Values_Get (Form req) "discharge-for-user" in
  let op :=
    if String.eqb dischargeForUser "" then LoginOp else DischargeForOp in
  r <- reads (store_Authorize req op) ;;
  match r with
  | inl err =>
      e <- needLoginError req
             (mkRequestInfo (ciCaveat ci) (ciId ci) (ciCondition ci)
                            (Values_Get (Header req) "Origin")) err ;;
      fail e
  | inr authInfo =>
      (Infof (LogAuthorized op (Id (aiIdentity authInfo))) ;;;
       (if String.eqb dischargeForUser "" then
          checkCondition (aiIdentity authInfo) dischargeForUser ci
        else
          r <- reads (store_GetIdentity dischargeForUser) ;;
          match r with
          | Some err => fail (Mask err [Is params.ErrNotFound])
          | None =>
              checkCondition (store_Identity dischargeForUser)
                             dischargeForUser ci
          end))
  end.

(** [httprequest.Params], [waitRequest] and [waitResponse]. *)
Record Params : Type := mkParams { pRequest : Request }.

Record waitRequest : Type := mkWaitRequest { WaitID : string }.

Record waitResponse : Type := mkWaitResponse {
  wrMacaroon : BakeryMacaroon;
  wrDischargeToken : list Macaroon
}.

(** [Wait] serves [/v1/wait]: it waits until the login has completed
    and returns the discharge macaroon.  The identity macaroons are
    pointers: the slice that goes into the cookie and into the response
    holds the macaroon the origin caveat was added to. *)
Definition Wait (p : Params) (w : waitRequest) : M W waitResponse :=
  if String.eqb (WaitID w) "" then
    fail (WithCausef None params.ErrBadRequest "wait id parameter not found")
  else
    r <- calls (place_Wait (WaitID w)) ;;
    match r with
    | inl err => fail (Notef err "cannot wait")
    | inr (reqInfo, login) =>
        match Error login with
        | Some err => fail (NoteMask err "login failed" [Any])
        | None =>
            let originCaveat :=
              Namespace_ResolveCaveat (ClientOriginCaveat (riOrigin reqInfo)) in
            match IdentityMacaroon login with
            | [] => panic "index out of range"
            | m0 :: rest =>
                match AddFirstPartyCaveat m0 (Caveat_Condition originCaveat) with
                | inl err =>
                    fail (Notef err
                            "cannot add origin caveat to identity macaroon")
                | inr m0' =>
                    let identityMacaroon := m0' :: rest in
                    match NewCookie identityMacaroon with
                    | inl err => fail (Notef err "cannot make cookie")
                    | inr c =>
                        let cookie :=
                          mkCookie "macaroon-identity" (cookiePath c)
                                   (cookieValue c) in
                        let request := AddCookie (pRequest p) cookie in
                        m <- orReturn
                               (bakery_Discharge (riCaveatId reqInfo)
                                  (riCaveat reqInfo) Oven_Key
                                  (checkThirdPartyCaveat request))
                               (fun err => NoteMask err "cannot discharge" [Any]) ;;
                        (SetCookie (mkCookie (cookieName cookie) "/"
                                             (cookieValue cookie)) ;;;
                         ret (mkWaitResponse m identityMacaroon))
                    end
                end
            end
        end
    end.

(** [dischargeTokenForUserRequest] and its response. *)
Record dischargeTokenForUserRequest : Type := mkTokenRequest {
  Username : string
}.

Record dischargeTokenForUserResponse : Type := mkTokenResponse {
  DischargeToken : BakeryMacaroon
}.

(** [DischargeTokenForUser] creates a discharge token for a user. *)
Definition DischargeTokenForUser (p : Params)
    (r : dischargeTokenForUserRequest) : M W dischargeTokenForUserResponse :=
  e <- reads (store_GetIdentity (Username r)) ;;
  match e with
  | Some err => fail (NoteMask err "cannot get identity" [Is params.ErrNotFound])
  | None =>
      now <- reads time_Now ;;
      m <- orReturn
             (Oven_NewMacaroon (RequestVersion (pRequest p))
                (now + dischargeTokenDuration)
                [UserDeclaration (Username r)] [LoginOp])
             (fun err => NoteMask err "cannot create discharge token" [Any]) ;;
      ret (mkTokenResponse m)
  end.

End Discharge.

(** ** The server shell: routing fallbacks *)

Section Server.

(** Whether a registered path pattern of [httprouter] matches a request
    path. *)
Variable pathMatches : string -> string -> bool.

(** A route registered with [router.Handle(method, path, handle)]; the
    handle is kept by name. *)
Record Route : Type := mkRoute {
  routeMethod : string;
  routePath : string;
  routeHandle : string
}.

(** [Server]: the router with its registered routes. *)
Record Server : Type := mkServer { router : list Route }.

(** How a request is answered: by a registered handle, or by an error
    written with [WriteError]. *)
Inductive Answer : Type :=
| Handled (handle : string)
| WriteError (err : error).

(** Modelled from the spec: [router.Lookup(method, path)] of the
    httprouter library, which is not part of the sources: the handle
    registered for the method and matching the path, [None] for Go's
    [nil]. *)
Definition Lookup (routes : list Route) (method path : string)
    : option string :=
  routeHandle <$>
    List.find (fun r => String.eqb (routeMethod r) method
                        && pathMatches (routePath r) path) routes.

(** [notFound] is called when no handler is found for the endpoint. *)
Definition notFound (req : Request) : Answer :=
  WriteError (WithCausef None params.ErrNotFound
                ("not found: " +:+ URLPath req)).

(** The loop of [methodNotAllowed] over the methods still to probe. *)
Fixpoint methodNotAllowed_probe (s : Server) (req : Request)
    (methods : list string) : Answer :=
  match methods with
  | [] => notFound req
  | method :: rest =>
      if String.eqb method (Method req) then
        methodNotAllowed_probe s req rest
      else
        match Lookup (router s) method (URLPath req) with
        | Some _ =>
            WriteError (WithCausef None params.ErrMethodNotAllowed
                          (Method req +:+ " not allowed for " +:+ URLPath req))
        | None => methodNotAllowed_probe s req rest
        end
  end.

(** [methodNotAllowed] is called when no handler is found for the
    request method but the router has one for a different method. *)
Definition methodNotAllowed (s : Server) (req : Request) : Answer :=
  methodNotAllowed_probe s req ["GET"; "POST"; "PUT"; "DELETE"; "HEAD"; "PATCH"].

(** Modelled from the spec: [router.ServeHTTP] of the httprouter
    library, which is not part of the sources, with redirections
    disabled and the two fallbacks installed by [New]; section 4.8 and
    the comments of the two fallbacks: the handle of the matching route;
    else [MethodNotAllowed] when a route of another method matches the
    path; else [NotFound]. *)
Definition Router_ServeHTTP (s : Server) (req : Request) : Answer :=
  match Lookup (router s) (Method req) (URLPath req) with
  | Some handle => Handled handle
  | None =>
      if existsb (fun r => negb (String.eqb (routeMethod r) (Method req))
                           && pathMatches (routePath r) (URLPath req))
                 (router s)
      then methodNotAllowed s req
      else notFound req
  end.

(** [Server.ServeHTTP]: the CORS headers, then the router. *)
Definition ServeHTTP (s : Server) (req : Request)
    : list (string * string) * Answer :=
  ([("Access-Control-Allow-Origin", "*");
    ("Access-Control-Allow-Headers",
     "Bakery-Protocol-Version, Macaroons, X-Requested-With, Content-Type");
    ("Access-Control-Cache-Max-Age", "600")],
   Router_ServeHTTP s req).

(** [New]: the routes of the shell, then those of the API versions. *)
Definition New (handlers : list Route) : Server :=
  mkServer ([mkRoute "OPTIONS" "/*path" "options";
             mkRoute "GET" "/metrics" "prometheus";
             mkRoute "GET" "/static/*path" "static"] ++ handlers).

End Server.

(** ** An in-memory implementation of the collaborators

    Identities and rendezvous entries are kept in finite maps; each
    collaborator can be made to fail.  A request is authorized by
    admin credentials (for every operation) or, for [LoginOp], by an
    identity macaroon in the [macaroon-identity] cookie whose
    client-origin caveats all name the origin of the request. *)

Module Mem.

Record IdentityDoc : Type := mkDoc {
  docGroups : list string;
  docLastDischarge : option Z
}.

Record Entry : Type := mkEntry {
  entryInfo : dischargeRequestInfo;
  entryLogin : option loginInfo
}.

Record World : Type := mkWorld {
  identities : gmap string IdentityDoc;
  rendezvous : gmap string Entry;
  clock : Z;
  storeFault : option error;
  placeFault : option error;
  ovenFault : option error
}.

Definition Op_eqb (a b : Op) : bool :=
  String.eqb (Entity a) (Entity b) && String.eqb (Action a) (Action b).

(** The text of a caveat. *)
Definition Condition (c : Caveat) : string :=
  match c with
  | DeclaredCaveat k v => "declared " +:+ k +:+ " " +:+ v
  | TimeBeforeCaveat t => "time-before " +:+ pretty t
  | ClientOriginCaveat o => if String.eqb o "" then "origin" else "origin " +:+ o
  end.

(** Modelled from the spec: [allow] of an ACL identity, section 3: true
    iff the identity is a member of at least one of the required
    groups. *)
Definition memberOfAny (groups acl : list string) : bool :=
  existsb (fun g => existsb (String.eqb g) groups) acl.

Definition identityOf (u : string) : Identity World :=
  mkIdentity u
    (Some (fun acl w =>
             match identities w !! u with
             | Some doc => inr (memberOfAny (docGroups doc) acl)
             | None => inl (WithCausef None params.ErrNotFound "user not found")
             end)).

Definition adminIdentity : Identity World :=
  mkIdentity "admin" (Some (fun _ _ => inr true)).

(** Modelled from the spec: [store.Authorize], sections 4.3 and 4.5:
    admin credentials authorize every operation; an identity macaroon
    whose first-party caveats hold authorizes [LoginOp] as the identity
    it was minted for. *)
Definition Authorize (req : Request) (op : Op) (w : World)
    : error + AuthInfo World :=
  if String.eqb (Values_Get (Header req) "Authorization") "Basic admin" then
    inr (mkAuthInfo adminIdentity)
  else if Op_eqb op LoginOp then
    match List.find (fun c => String.eqb (cookieName c) "macaroon-identity")
                    (Cookies req) with
    | Some (mkCookie _ _ (m :: _)) =>
        if forallb (String.eqb (Condition (ClientOriginCaveat
                                  (Values_Get (Header req) "Origin"))))
                   (macCaveats m)
        then inr (mkAuthInfo (identityOf (macId m)))
        else inl (Other "verification failed: caveat not satisfied")
    | _ => inl (Other "no identity macaroon")
    end
  else inl (ErrorCode "unauthorized").

(** Modelled from the spec: [getIdentity] and [updateIdentity] of the
    identity store, section 4.3. *)
Definition GetIdentity (u : string) (w : World) : option error :=
  match storeFault w with
  | Some e => Some e
  | None =>
      match identities w !! u with
      | Some _ => None
      | None => Some (WithCausef None params.ErrNotFound "user not found")
      end
  end.

Definition UpdateIdentity (u : string) (upd : Update) (w : World)
    : option error * World :=
  match storeFault w with
  | Some e => (Some e, w)
  | None =>
      match identities w !! u, upd with
      | Some doc, SetLastDischarge t =>
          (None,
           mkWorld (<[u := mkDoc (docGroups doc) (Some t)]> (identities w))
                   (rendezvous w) (clock w) (storeFault w) (placeFault w)
                   (ovenFault w))
      | None, _ =>
          (Some (WithCausef None params.ErrNotFound "user not found"), w)
      end
  end.

(** Modelled from the spec: the rendezvous place, section 4.6: [new]
    stores the request information under a fresh id, [done] writes the
    login outcome, [wait] returns both once the login is done. *)
Definition NewRendezvous (info : dischargeRequestInfo) (w : World)
    : (error + string) * World :=
  match placeFault w with
  | Some e => (inl e, w)
  | None =>
      let waitId := "wait-" +:+ pretty (size (rendezvous w)) in
      (inr waitId,
       mkWorld (identities w) (<[waitId := mkEntry info None]> (rendezvous w))
               (clock w) (storeFault w) (placeFault w) (ovenFault w))
  end.

(** The login path completes a rendezvous. *)
Definition Done (waitId : string) (login : loginInfo) (w : World) : World :=
  mkWorld (identities w)
          (alter (fun e => mkEntry (entryInfo e) (Some login)) waitId
                 (rendezvous w))
          (clock w) (storeFault w) (placeFault w) (ovenFault w).

Definition PlaceWait (waitId : string) (w : World)
    : (error + dischargeRequestInfo * loginInfo) * World :=
  match rendezvous w !! waitId with
  | Some (mkEntry info (Some login)) =>
      (inr (info, login),
       mkWorld (identities w) (delete waitId (rendezvous w)) (clock w)
               (storeFault w) (placeFault w) (ovenFault w))
  | Some (mkEntry _ None) => (inl (Other "rendezvous timed out"), w)
  | None => (inl (ErrorCode "expired"), w)
  end.

(** Modelled from the spec: [checkers.ParseCaveat] of the bakery
    library, section 4.7: the name of a condition is its first token,
    the arguments are the remainder. *)
Fixpoint cutAtSpace (s : string) : string * string :=
  match s with
  | EmptyString => (EmptyString, EmptyString)
  | String c rest =>
      if Ascii.eqb c " "%char then (EmptyString, rest)
      else let (name, args) := cutAtSpace rest in (String c name, args)
  end.

Definition ParseCaveat (cav : string) : error + string * string :=
  if String.eqb cav "" then inl (Other "empty caveat")
  else
    let (name, args) := cutAtSpace cav in
    if String.eqb name "" then inl (Other "caveat starts with space character")
    else inr (name, args).

(** Modelled from the spec: [bakery.Discharge], section 4.7.  A
    third-party caveat is kept in clear: its bytes are its condition.
    The discharge carries the caveats of the checker. *)
Definition Discharge (id caveat key : string)
    (checker : ThirdPartyCaveatInfo -> M World (list Caveat))
    : M World BakeryMacaroon :=
  (cavs <- checker (mkCaveatInfo caveat id caveat) ;;
   ret (mkBakeryMacaroon 0 [] cavs))%go.

#[export] Instance services : Services World := {|
  store_Authorize := Authorize;
  store_GetIdentity := GetIdentity;
  store_UpdateIdentity := UpdateIdentity;
  store_Identity := identityOf;
  store_GlobalOp := fun action => mkOp "global" action;
  store_ActionDischargeFor := "dischargeFor";
  place_NewRendezvous := NewRendezvous;
  place_Wait := PlaceWait;
  serviceURL := fun path => "https://idm.example" +:+ path;
  checkers_ParseCaveat := ParseCaveat;
  Namespace_ResolveCaveat := fun c => c;
  Caveat_Condition := Condition;
  Macaroon_addCaveatError := fun _ _ => None;
  NewCookie_error := fun _ => None;
  NewCookie_name := fun _ => "macaroon-authn";
  Oven_mint := fun _ _ _ _ w => (ovenFault w, w);
  Oven_Key := "key";
  bakery_Discharge := Discharge;
  time_Now := clock
|}.

(** Modelled from the spec: the path patterns of the httprouter
    library, section 6: literal text, with a catch-all [*name] at the
    end. *)
Fixpoint pathMatches (pattern path : string) : bool :=
  match pattern with
  | EmptyString => String.eqb path ""
  | String c pattern' =>
      if Ascii.eqb c "*"%char then true
      else
        match path with
        | EmptyString => false
        | String d path' => Ascii.eqb c d && pathMatches pattern' path'
        end
  end.

(** *** A small deployment *)

Definition world0 : World :=
  mkWorld {[ "alice" := mkDoc ["devs"; "ops"] None;
             "carol" := mkDoc ["qa"] None ]}
          ∅ 1000 None None None.

Definition state0 : State World := mkState world0 [] [].

Definition request (method path : string) (form header : list (string * string))
    : Request :=
  mkRequest method path
            (list_to_map ((fun kv => (fst kv, [snd kv])) <$> form))
            (list_to_map ((fun kv => (fst kv, [snd kv])) <$> header))
            [] 2.

Definition caveatInfo (condition : string) : ThirdPartyCaveatInfo :=
  mkCaveatInfo condition "caveat-id" condition.


End Mem.

(** ** Vocabulary of the statements *)

Section Vocabulary.
Context {W : Type} `{Services W}.

(** The [discharge-for-user] form parameter of a request. *)
Definition dischargeForUserOf (req : Request) : string :=
  Values_Get (Form req) "discharge-for-user".

(** The operation a discharge request is authorized for. *)
Definition requiredOp (req : Request) : Op :=
  if String.eqb (dischargeForUserOf req) "" then LoginOp else DischargeForOp.

(** The identity a discharge is made for, once the request has been
    authorized as [authInfo]. *)
Definition dischargeIdentity (req : Request) (authInfo : AuthInfo W)
    : Identity W :=
  if String.eqb (dischargeForUserOf req) "" then aiIdentity authInfo
  else store_Identity (dischargeForUserOf req).

(** The user named by [discharge-for-user], if any, is in the store. *)
Definition namedUserExists (req : Request) (w : W) : Prop :=
  dischargeForUserOf req = "" \/
  store_GetIdentity (dischargeForUserOf req) w = None.

(** The rendezvous information of a discharge request. *)
Definition requestInfoOf (req : Request) (ci : ThirdPartyCaveatInfo)
    : dischargeRequestInfo :=
  mkRequestInfo (ciCaveat ci) (ciId ci) (ciCondition ci)
                (Values_Get (Header req) "Origin").

(** The state after one more log entry. *)
Definition logged (e : LogEntry) (s : State W) : State W :=
  mkState (world s) (log s ++ [e]) (respCookies s).

(** The state after authorization has succeeded as [authInfo]. *)
Definition authorizedState (req : Request) (authInfo : AuthInfo W)
    (s : State W) : State W :=
  logged (LogAuthorized (requiredOp req) (Id (aiIdentity authInfo))) s.

(** The state with another world. *)
Definition withWorld (w : W) (s : State W) : State W :=
  mkState w (log s) (respCookies s).

(** The condition of the client-origin caveat [Wait] adds for an
    origin. *)
Definition originCondition (origin : string) : string :=
  Caveat_Condition (Namespace_ResolveCaveat (ClientOriginCaveat origin)).

End Vocabulary.


Section ServerVocabulary.
Variable pathMatches : string -> string -> bool.




End ServerVocabulary.

(** ** Runs on the in-memory implementation: the inputs *)

Module Runs.
Import Mem.

(** A discharge request without credentials, from a page of origin
    [https://a.example]. *)
Definition anonymous : Request :=
  request "POST" "/v1/discharge" [] [("Origin", "https://a.example")].

(** A discharge request of the admin on behalf of a user. *)
Definition adminFor (user : string) : Request :=
  request "POST" "/v1/discharge" [("discharge-for-user", user)]
          [("Authorization", "Basic admin")].

(** A discharge request of the admin for itself. *)
Definition adminSelf : Request :=
  request "POST" "/v1/discharge" [] [("Authorization", "Basic admin")].

(** The identity macaroon of a user, and a request that carries it. *)
Definition identityMacaroon (user : string) : Macaroon := mkMacaroon user [].

Definition withIdentity (user : string) : Request :=
  mkRequest "POST" "/v1/discharge" ∅ ∅
            [mkCookie "macaroon-identity" "" [identityMacaroon user]] 2.

Definition adminInfo : AuthInfo World := mkAuthInfo adminIdentity.

(** The deployment with the place, or the store, out of order. *)
Definition placeDown : State World :=
  mkState (mkWorld (identities world0) ∅ 1000 None
                   (Some (Other "place unavailable")) None) [] [].

Definition storeDown : State World :=
  mkState (mkWorld (identities world0) ∅ 1000
                   (Some (Other "connection refused")) None None) [] [].

(** The interactive flow: the anonymous request is told to log in, the
    login of [alice] completes the rendezvous, and the client waits
    from the same origin, or from another one. *)
Definition afterDischarge : State World :=
  snd (checkThirdPartyCaveat anonymous (caveatInfo "is-authenticated-user")
                             state0).

Definition afterLogin (login : loginInfo) : State World :=
  withWorld (Done "wait-0" login (world afterDischarge)) afterDischarge.

Definition waitFrom (origin : string) : Params :=
  mkParams (request "GET" "/v1/wait" [("waitid", "wait-0")]
                    [("Origin", origin)]).

Definition aliceLogin : loginInfo :=
  mkLoginInfo [identityMacaroon "alice"] None.

Definition emptyLogin : loginInfo := mkLoginInfo [] None.




Definition tokenRequest (user : string) : dischargeTokenForUserRequest :=
  mkTokenRequest user.

Definition tokenParams : Params :=
  mkParams (request "GET" "/v1/discharge-token-for-user" []
                    [("Authorization", "Basic admin")]).

End Runs.

(** ** The checker in front of [checkThirdPartyCaveat] *)

Section Checker.
Context {W : Type} `{Services W}.

(** The session pool behind [c.handler.getHandler]: acquiring a handler
    takes a session of the pool, [h.Close] gives it back. *)
Variable Pool : Type.
Variable getHandler : Request -> string -> Pool -> option error * Pool.
Variable handler_Close : Pool -> Pool.

(** [thirdPartyCaveatChecker.CheckThirdPartyCaveat] acquires a handler
    before checking the caveat; [defer h.Close()] runs when the check
    returns, fails or panics. *)
Definition CheckThirdPartyCaveat (req : Request) (ci : ThirdPartyCaveatInfo)
    (pool : Pool) (s : State W) : Outcome (list Caveat) * State W * Pool :=
  match getHandler req (URLPath req) pool with
  | (Some err, pool') => (Fail (Mask err []), s, pool')
  | (None, pool') =>
      let (o, s') := checkThirdPartyCaveat req ci s in
      (o, s', handler_Close pool')
  end.

End Checker.

(** ** The construction of the server *)

Section Construction.

(** [ServerParams]: the fields [New] reads; the others are passed on
    to the API versions untouched. *)
Record ServerParams : Type := mkServerParams {
  spAuthUsername : string;
  spAuthPassword : string;
  spKey : option string;
  spLocation : string;
  spLaunchpad : string
}.

(** The pool made by [store.NewPool]; the argument tells whether an
    external group getter was given ([sp.Launchpad != ""]). *)
Variable PoolT : Type.
Variable store_NewPool : bool -> ServerParams -> error + PoolT.

(** [bakery.GenerateKey()]. *)
Variable bakery_GenerateKey : error + string.

(** Whether [router.Handle] refuses a route because of the routes
    already registered; it then panics. *)
Variable conflicts : list Route -> Route -> bool.

(** [bakery.NewOven] and [auth.New], by the parameters [New] gives
    them. *)
Record Oven : Type := mkOven { ovenKey : option string; ovenLocation : string }.

Record Authorizer : Type := mkAuthorizer {
  AdminUsername : string;
  AdminPassword : string;
  authLocation : string;
  MacaroonOpStore : Oven
}.

(** [HandlerParams]. *)
Record HandlerParams : Type := mkHandlerParams {
  hpServerParams : ServerParams;
  hpPool : PoolT;
  hpOven : Oven;
  hpAuthorizer : Authorizer
}.

(** [NewAPIHandlerFunc]; an [httprequest.Handler] is kept as a
    [Route]. *)
Definition NewAPIHandlerFunc : Type := HandlerParams -> error + list Route.

(** [router.Handle(method, path, handle)]. *)
Definition router_Handle (routes : list Route) (r : Route)
    : Outcome (list Route) :=
  if conflicts routes r then Panic "conflicting route"
  else Ok (routes ++ [r])%list.

(** [for _, h := range handlers { srv.router.Handle(...) }]. *)
Fixpoint registerHandlers (routes : list Route) (handlers : list Route)
    : Outcome (list Route) :=
  match handlers with
  | [] => Ok routes
  | h :: rest =>
      match router_Handle routes h with
      | Ok routes' => registerHandlers routes' rest
      | Fail err => Fail err
      | Panic msg => Panic msg
      end
  end.

(** [for name, newAPI := range versions { ... }], in the order the map
    is ranged over. *)
Fixpoint registerVersions (hp : HandlerParams) (routes : list Route)
    (versions : list (string * NewAPIHandlerFunc)) : Outcome (list Route) :=
  match versions with
  | [] => Ok routes
  | (name, newAPI) :: rest =>
      match newAPI hp with
      | inl err => Fail (Notef err ("cannot create API " +:+ name))
      | inr handlers =>
          match registerHandlers routes handlers with
          | Ok routes' => registerVersions hp routes' rest
          | Fail err => Fail err
          | Panic msg => Panic msg
          end
      end
  end.

(** The server parameters with the key set. *)
Definition withKey (sp : ServerParams) (key : string) : ServerParams :=
  mkServerParams (spAuthUsername sp) (spAuthPassword sp) (Some key)
                 (spLocation sp) (spLaunchpad sp).

(** [New], with the versions as the list of the entries of the map, in
    the order they are ranged over.  It returns the server and the pool
    the server holds. *)
Definition NewServer (sp : ServerParams)
    (versions : list (string * NewAPIHandlerFunc))
    : Outcome (Server * PoolT) :=
  match versions with
  | [] =>
      Fail (Newf "identity server must serve at least one version of the API")
  | _ :: _ =>
      match store_NewPool (negb (String.eqb (spLaunchpad sp) "")) sp with
      | inl err => Fail (Notef err "cannot make store")
      | inr pool =>
          match
            match spKey sp with
            | None =>
                match bakery_GenerateKey with
                | inl err => inl (Notef err "cannot generate key")
                | inr key => inr (withKey sp key)
                end
            | Some _ => inr sp
            end
          with
          | inl err => Fail err
          | inr sp' =>
              let oven := mkOven (spKey sp') "identity" in
              let auth := mkAuthorizer (spAuthUsername sp') (spAuthPassword sp')
                                       (spLocation sp') oven in
              match registerHandlers []
                      [mkRoute "OPTIONS" "/*path" "options";
                       mkRoute "GET" "/metrics" "prometheus";
                       mkRoute "GET" "/static/*path" "static"] with
              | Ok routes =>
                  match registerVersions (mkHandlerParams sp' pool oven auth)
                                         routes versions with
                  | Ok routes' => Ok (mkServer routes', pool)
                  | Fail err => Fail err
                  | Panic msg => Panic msg
                  end
              | Fail err => Fail err
              | Panic msg => Panic msg
              end
          end
      end
  end.

End Construction.
Arguments mkHandlerParams {PoolT} hpServerParams hpPool hpOven hpAuthorizer.
Arguments hpServerParams {PoolT} h.
Arguments hpPool {PoolT} h.
Arguments hpOven {PoolT} h.
Arguments hpAuthorizer {PoolT} h.

(** ** The relation hooks of the charm *)

Module Charm.

(** The storage section of the configuration a hook writes. *)
Inductive Storage : Type :=
| MongoDB (address : string)
| Postgres (connection_string : string).

(** What a hook sees and changes: the data of the relation
    ([hookenv.relation_get]), the status of the unit
    ([hookenv.status_set]) and the configurations handed to
    [jaascharm.update_config_and_restart], oldest first. *)
Record Unit : Type := mkUnit {
  relation : gmap string string;
  status : option (string * string);
  configs : list Storage
}.

(** [hookenv.relation_get(key)]: the value, or [None]. *)
Definition relation_get (key : string) (u : Unit) : option string :=
  relation u !! key.

(** Python's [not v] for [v] a string or [None]. *)
Definition not_ (v : option string) : bool :=
  match v with
  | None => true
  | Some s => String.eqb s ""
  end.

(** The text of a value known not to be [None]. *)
Definition text (v : option string) : string :=
  match v with
  | Some s => s
  | None => "None"
  end.

Definition status_set (state message : string) (u : Unit) : Unit :=
  mkUnit (relation u) (Some (state, message)) (configs u).

Definition update_config_and_restart (config : Storage) (u : Unit) : Unit :=
  mkUnit (relation u) (status u) (configs u ++ [config]).

(** [relation_changed] of the [db-relation-changed] hook (MongoDB). *)
Definition db_relation_changed (u : Unit) : Unit :=
  let hostname := relation_get "hostname" u in
  let port := relation_get "port" u in
  if not_ hostname || not_ port then
    status_set "waiting" "waiting for mongodb relation" u
  else
    update_config_and_restart (MongoDB (text hostname +:+ ":" +:+ text port)) u.

(** [relation_changed] of the [postgres-relation-changed] hook. *)
Definition postgres_relation_changed (u : Unit) : Unit :=
  let connection_str := relation_get "master" u in
  if not_ connection_str then
    status_set "waiting" "waiting for postgres relation" u
  else
    update_config_and_restart (Postgres (text connection_str)) u.

End Charm.

(** ** More of the in-memory implementation *)

Module MemShell.
Import Mem.

(** Modelled from the spec: the session pool, section 4.3: at most
    [maxSessions] sessions are lent at a time; when none is left the
    acquisition fails with the service-unavailable error. *)
Record Sessions : Type := mkSessions { lent : nat; maxSessions : nat }.

Definition acquire (req : Request) (path : string) (p : Sessions)
    : option error * Sessions :=
  if Nat.ltb (lent p) (maxSessions p)
  then (None, mkSessions (S (lent p)) (maxSessions p))
  else (Some (WithCausef None (ErrorCode "service unavailable")
                "too many mongo sessions in use"), p).

Definition release (p : Sessions) : Sessions :=
  mkSessions (Nat.pred (lent p)) (maxSessions p).

(** A store whose identities do not implement [bakery.ACLIdentity]. *)
Definition plainIdentity (u : string) : Identity World := mkIdentity u None.

Definition plainAuthorize (req : Request) (op : Op) (w : World)
    : error + AuthInfo World :=
  match Authorize req op w with
  | inl err => inl err
  | inr authInfo => inr (mkAuthInfo (plainIdentity (Id (aiIdentity authInfo))))
  end.

Definition plainServices : Services World := {|
  store_Authorize := plainAuthorize;
  store_GetIdentity := GetIdentity;
  store_UpdateIdentity := UpdateIdentity;
  store_Identity := plainIdentity;
  store_GlobalOp := fun action => mkOp "global" action;
  store_ActionDischargeFor := "dischargeFor";
  place_NewRendezvous := NewRendezvous;
  place_Wait := PlaceWait;
  serviceURL := fun path => "https://idm.example" +:+ path;
  checkers_ParseCaveat := ParseCaveat;
  Namespace_ResolveCaveat := fun c => c;
  Caveat_Condition := Condition;
  Macaroon_addCaveatError := fun _ _ => None;
  NewCookie_error := fun _ => None;
  NewCookie_name := fun _ => "macaroon-authn";
  Oven_mint := fun _ _ _ _ w => (ovenFault w, w);
  Oven_Key := "key";
  bakery_Discharge := Discharge;
  time_Now := clock
|}.

(** A deployment whose groups cannot be resolved (the identity was
    removed after the macaroon was minted). *)
Definition withoutCarol : State World :=
  mkState (mkWorld {[ "alice" := mkDoc ["devs"; "ops"] None ]} ∅ 1000
                   None None None) [] [].

(** The parameters of a server, and two API versions: one that serves
    the [v1] routes of [discharge.go], one that cannot be created. *)
Definition serverParams : ServerParams :=
  mkServerParams "admin" "password" None "https://idm.example" "".

Definition v1 : NewAPIHandlerFunc unit :=
  fun _ => inr [mkRoute "GET" "/v1/wait" "wait";
                mkRoute "GET" "/v1/discharge-token-for-user"
                        "discharge-token-for-user"].

Definition broken : NewAPIHandlerFunc unit :=
  fun _ => inl (Other "no such API").

(** A route conflicts with a registered one of the same method and
    path. *)
Definition samePath (routes : list Route) (r : Route) : bool :=
  existsb (fun r' => String.eqb (routeMethod r') (routeMethod r)
                     && String.eqb (routePath r') (routePath r)) routes.

Definition newServer (versions : list (string * NewAPIHandlerFunc unit))
    : Outcome (Server * unit) :=
  NewServer unit (fun _ _ => inr tt) (inr "generated-key") samePath
            serverParams versions.

(** A unit related to a MongoDB, and one whose relation has no port
    yet. *)
Definition related : Charm.Unit :=
  Charm.mkUnit {[ "hostname" := "10.0.0.7"; "port" := "27017";
                  "master" := "host=10.0.0.8 dbname=idm" ]} None [].

Definition unrelated : Charm.Unit :=
  Charm.mkUnit {[ "hostname" := "10.0.0.7"; "port" := "" ]} None [].

(** A login that was refused, and a wait for a rendezvous that does not
    exist. *)
Definition refusedLogin : loginInfo :=
  mkLoginInfo [] (Some (ErrorCode "unauthorized")).

Definition stateAfter (login : loginInfo) : State World :=
  Runs.afterLogin login.

(** A pool with one session left, and a pool with none. *)
Definition oneLeft : Sessions := mkSessions 0 1.

Definition noneLeft : Sessions := mkSessions 1 1.

End MemShell.

(** Whether a string has a white-space character. *)
Fixpoint anySpace (s : string) : bool :=
  match s with
  | EmptyString => false
  | String c rest => isSpace c || anySpace rest
  end.



(** A string without its white-space characters. *)
Fixpoint dropSpaces (s : string) : string :=
  match s with
  | EmptyString => EmptyString
  | String c rest =>
      if isSpace c then dropSpaces rest else String c (dropSpaces rest)
  end.


(** ** Properties of the error discipline *)

Lemma Cause_Mask_passes (err : error) (code : string) :
  Cause err = ErrorCode code ->
  Cause (Mask err [Is (ErrorCode code)]) = ErrorCode code.
Proof.
  intros Hc. unfold Mask, NoteMask. simpl. rewrite Hc. simpl.
  rewrite String.eqb_refl. simpl. reflexivity.
Qed.

Lemma Cause_NoteMask_passes (err : error) (msg code : string) :
  Cause err = ErrorCode code ->
  Cause (NoteMask err msg [Is (ErrorCode code)]) = ErrorCode code.
Proof.
  intros Hc. unfold NoteMask. simpl. rewrite Hc. simpl.
  rewrite String.eqb_refl. simpl. reflexivity.
Qed.

Lemma Is_ErrorCode_true (code : string) (err : error) :
  Is (ErrorCode code) err = true -> err = ErrorCode code.
Proof.
  destruct err as [c| | | |]; simpl; try discriminate.
  intros E. apply String.eqb_eq in E. subst c. reflexivity.
Qed.

Lemma Cause_NoteMask_Any (err : error) (msg : string) :
  Cause (NoteMask err msg [Any]) = Cause err.
Proof. reflexivity. Qed.

Lemma errorCode_Newf (msg : string) : errorCode (Newf msg) = None.
Proof. reflexivity. Qed.

(** ** Properties of [checkThirdPartyCaveat] *)

Section CheckProofs.
Context {W : Type} `{Services W}.

(** Case analysis on the answer of the place to [NewRendezvous]. *)
Ltac case_rendezvous :=
  match goal with
  | |- context [place_NewRendezvous ?info ?w] =>
      destruct (place_NewRendezvous info w) as [[?perr | ?waitId] ?w']
  end.

Lemma string_eqb_false (a b : string) : a <> b -> String.eqb a b = false.
Proof. intros Hne. apply String.eqb_neq. exact Hne. Qed.

(** Once the request is authorized and the named user, if any, is
    found, the call continues with [checkCondition] for the identity
    the discharge is made for. *)
Lemma checkThirdPartyCaveat_authorized (req : Request)
    (ci : ThirdPartyCaveatInfo) (s : State W) (authInfo : AuthInfo W) :
  store_Authorize req (requiredOp req) (world s) = inr authInfo ->
  namedUserExists req (world s) ->
  checkThirdPartyCaveat req ci s =
  checkCondition (dischargeIdentity req authInfo) (dischargeForUserOf req) ci
                 (authorizedState req authInfo s).
Proof.
  intros Hauth Hex.
  unfold namedUserExists, checkThirdPartyCaveat, dischargeIdentity,
    authorizedState, logged, requiredOp, dischargeForUserOf in *.
  unfold bind at 1. unfold reads at 1. rewrite Hauth.
  unfold bind at 1. unfold Infof at 1.
  destruct (String.eqb (Values_Get (Form req) "discharge-for-user") "") eqn:E.
  - reflexivity.
  - destruct Hex as [Hemp | Hget].
    + rewrite Hemp in E. discriminate.
    + unfold bind at 1. unfold reads at 1. simpl. rewrite Hget. reflexivity.
Qed.

(** With the condition parsed, [checkCondition] is the dispatch, then
    the update of the discharge time. *)
Lemma checkCondition_parsed (identity : Identity W) (dfu : string)
    (ci : ThirdPartyCaveatInfo) (cond args : string) (s : State W) :
  checkers_ParseCaveat (ciCondition ci) = inr (cond, args) ->
  checkCondition identity dfu ci s =
  match dispatchCondition identity dfu cond args s with
  | (Ok cavs, s1) =>
      match updateDischargeTime (Id identity) s1 with
      | (Ok _, s2) => (Ok cavs, s2)
      | (Fail err, s2) => (Fail err, s2)
      | (Panic msg, s2) => (Panic msg, s2)
      end
  | (Fail err, s1) => (Fail err, s1)
  | (Panic msg, s1) => (Panic msg, s1)
  end.
Proof.
  intros Hp. unfold checkCondition. rewrite Hp. unfold bind, ret.
  destruct (dispatchCondition identity dfu cond args s) as [[cavs|e|m] s1];
    try reflexivity.
Qed.

(** [updateDischargeTime] always returns; an error of the store only
    adds a log entry. *)
Lemma updateDischargeTime_returns (username : string) (s : State W) :
  updateDischargeTime username s =
  (Ok tt,
   let r := store_UpdateIdentity username (SetLastDischarge (time_Now (world s)))
                                 (world s) in
   mkState (snd r)
           (log s ++ match fst r with
                     | Some e => [LogUpdateFailed e]
                     | None => []
                     end)
           (respCookies s)).
Proof.
  unfold updateDischargeTime, bind, reads, calls, Infof, ret. simpl.
  destruct (store_UpdateIdentity username (SetLastDischarge (time_Now (world s)))
              (world s)) as [[e|] w'] eqn:E; simpl.
  - reflexivity.
  - rewrite app_nil_r. reflexivity.
Qed.

(** C4 (confirmed).  With [discharge-for-user] empty the request must be
    authorized for [LoginOp] and the discharge is made for the
    authorized identity.  With it non-empty the request must be
    authorized for [DischargeForOp]; the named user is then looked up in
    the store: an error of the lookup is returned, keeping the cause
    [ErrNotFound] when it has that cause, and when the user is found the
    discharge is made for [store.Identity] of that user. *)
Theorem checkThirdPartyCaveat_discharge_for_user (req : Request)
    (ci : ThirdPartyCaveatInfo) (s : State W) :
  let user := Values_Get (Form req) "discharge-for-user" in
  (user = "" ->
     (forall err, store_Authorize req LoginOp (world s) = inl err ->
        forall cavs, fst (checkThirdPartyCaveat req ci s) <> Ok cavs) /\
     (forall authInfo, store_Authorize req LoginOp (world s) = inr authInfo ->
        checkThirdPartyCaveat req ci s =
        checkCondition (aiIdentity authInfo) "" ci
          (logged (LogAuthorized LoginOp (Id (aiIdentity authInfo))) s))) /\
  (user <> "" ->
     (forall err, store_Authorize req DischargeForOp (world s) = inl err ->
        forall cavs, fst (checkThirdPartyCaveat req ci s) <> Ok cavs) /\
     (forall authInfo,
        store_Authorize req DischargeForOp (world s) = inr authInfo ->
        let s' := logged (LogAuthorized DischargeForOp
                            (Id (aiIdentity authInfo))) s in
        (forall err, store_GetIdentity user (world s) = Some err ->
           checkThirdPartyCaveat req ci s =
             (Fail (Mask err [Is params.ErrNotFound]), s') /\
           (Cause err = params.ErrNotFound ->
            Cause (Mask err [Is params.ErrNotFound]) = params.ErrNotFound)) /\
        (store_GetIdentity user (world s) = None ->
           checkThirdPartyCaveat req ci s =
           checkCondition (store_Identity user) user ci s'))).
Proof.
  intros user. subst user. split; intros Huser.
  - assert (Hop : requiredOp req = LoginOp).
    { unfold requiredOp, dischargeForUserOf. rewrite Huser. reflexivity. }
    split.
    + intros err Hauth cavs. unfold checkThirdPartyCaveat.
      rewrite Huser. simpl String.eqb. cbv iota.
      unfold bind at 1. unfold reads at 1. rewrite Hauth.
      cbv beta delta [bind needLoginError calls ret fail].
      case_rendezvous; simpl; discriminate.
    + intros authInfo Hauth. rewrite <- Hop in Hauth.
      rewrite (checkThirdPartyCaveat_authorized req ci s authInfo Hauth).
      * unfold dischargeIdentity, authorizedState, dischargeForUserOf.
        rewrite Hop, Huser. reflexivity.
      * left. exact Huser.
  - pose proof (string_eqb_false _ _ Huser) as Hneq.
    assert (Hop : requiredOp req = DischargeForOp).
    { unfold requiredOp, dischargeForUserOf. rewrite Hneq. reflexivity. }
    split.
    + intros err Hauth cavs. unfold checkThirdPartyCaveat.
      rewrite Hneq.
      unfold bind at 1. unfold reads at 1. rewrite Hauth.
      cbv beta delta [bind needLoginError calls ret fail].
      case_rendezvous; simpl; discriminate.
    + intros authInfo Hauth s'. split.
      * intros err Hget. split.
        -- unfold checkThirdPartyCaveat. rewrite Hneq.
           unfold bind at 1. unfold reads at 1. rewrite Hauth.
           unfold bind at 1. unfold Infof at 1.
           unfold bind at 1. unfold reads at 1. simpl. rewrite Hget.
           reflexivity.
        -- apply Cause_Mask_passes.
      * intros Hget. rewrite <- Hop in Hauth.
        rewrite (checkThirdPartyCaveat_authorized req ci s authInfo Hauth).
        -- unfold dischargeIdentity, authorizedState, dischargeForUserOf.
           rewrite Hop, Hneq. reflexivity.
        -- right. exact Hget.
Qed.

(** C1 (amended).  When the condition is [is-authenticated-user], the
    request is authorized and the user named by [discharge-for-user],
    if any, exists, the call returns exactly two caveats: the declared
    username (the named user, else the id of the authorized identity)
    and time-before now + 24 hours. *)
Theorem is_authenticated_user_caveats (req : Request)
    (ci : ThirdPartyCaveatInfo) (s : State W) (authInfo : AuthInfo W)
    (args : string) :
  checkers_ParseCaveat (ciCondition ci) = inr ("is-authenticated-user", args) ->
  store_Authorize req (requiredOp req) (world s) = inr authInfo ->
  namedUserExists req (world s) ->
  fst (checkThirdPartyCaveat req ci s) =
  Ok [UserDeclaration
        (if String.eqb (dischargeForUserOf req) ""
         then Id (aiIdentity authInfo) else dischargeForUserOf req);
      TimeBeforeCaveat (time_Now (world s) + 24 * Hour)].
Proof.
  intros Hp Hauth Hex.
  rewrite (checkThirdPartyCaveat_authorized req ci s authInfo Hauth Hex).
  rewrite (checkCondition_parsed _ _ _ _ _ _ Hp).
  unfold dispatchCondition. rewrite String.eqb_refl.
  cbv beta iota delta [bind reads ret].
  rewrite updateDischargeTime_returns. unfold dischargeIdentity.
  destruct (String.eqb (dischargeForUserOf req) ""); reflexivity.
Qed.

(** C2 (amended).  When the authorization fails, the call asks the
    place for a rendezvous holding the caveat, its id, its condition
    and the origin of the request.  If the place returns a wait id, the
    call returns the interaction-required error with the service URLs
    of the login and wait pages for that id and the authorization error
    as its cause; if the place fails, the call returns the error
    "cannot make rendezvous". *)
Theorem authorization_failure_needs_login (req : Request)
    (ci : ThirdPartyCaveatInfo) (s : State W) (why : error) :
  store_Authorize req (requiredOp req) (world s) = inl why ->
  checkThirdPartyCaveat req ci s =
  match place_NewRendezvous (requestInfoOf req ci) (world s) with
  | (inr waitId, w') =>
      (Fail (InteractionRequiredError
               (serviceURL ("/v1/login?waitid=" +:+ waitId))
               (serviceURL ("/v1/wait?waitid=" +:+ waitId))
               why (RequestVersion req)),
       withWorld w' s)
  | (inl err, w') =>
      (Fail (Notef err "cannot make rendezvous"), withWorld w' s)
  end.
Proof.
  intros Hauth. unfold checkThirdPartyCaveat.
  unfold requiredOp, dischargeForUserOf in Hauth.
  unfold bind at 1. unfold reads at 1. rewrite Hauth.
  cbv beta delta [bind needLoginError calls ret fail requestInfoOf withWorld].
  case_rendezvous; reflexivity.
Qed.



(** C8 (confirmed).  When the dispatch on the condition has produced
    the caveats, the store is asked to set the last discharge time of
    the identity the discharge is made for, and the call returns those
    caveats whatever the store answers: an error of the update only
    adds a log entry. *)
Theorem discharge_time_update_never_fails (req : Request)
    (ci : ThirdPartyCaveatInfo) (s s1 : State W) (authInfo : AuthInfo W)
    (cond args : string) (cavs : list Caveat) :
  checkers_ParseCaveat (ciCondition ci) = inr (cond, args) ->
  store_Authorize req (requiredOp req) (world s) = inr authInfo ->
  namedUserExists req (world s) ->
  dispatchCondition (dischargeIdentity req authInfo) (dischargeForUserOf req)
                    cond args (authorizedState req authInfo s) = (Ok cavs, s1) ->
  let update :=
    store_UpdateIdentity (Id (dischargeIdentity req authInfo))
                         (SetLastDischarge (time_Now (world s1))) (world s1) in
  checkThirdPartyCaveat req ci s =
  (Ok cavs,
   mkState (snd update)
           (log s1 ++ match fst update with
                      | Some err => [LogUpdateFailed err]
                      | None => []
                      end)
           (respCookies s1)).
Proof.
  intros Hp Hauth Hex Hd update.
  rewrite (checkThirdPartyCaveat_authorized req ci s authInfo Hauth Hex).
  rewrite (checkCondition_parsed _ _ _ _ _ _ Hp).
  rewrite Hd, updateDischargeTime_returns. reflexivity.
Qed.

End CheckProofs.

(** ** Properties of [Wait] and [DischargeTokenForUser] *)

Section HandlerProofs.
Context {W : Type} `{Services W}.


(** C10 (confirmed).  When the rendezvous yields a login result with no
    error and an empty slice of identity macaroons, [Wait] panics on
    the access to element 0: it returns neither a response nor an
    error. *)
Theorem Wait_panics_on_empty_identity_macaroon (p : Params) (w : waitRequest)
    (s : State W) (reqInfo : dischargeRequestInfo) (login : loginInfo)
    (w1 : W) :
  WaitID w <> "" ->
  place_Wait (WaitID w) (world s) = (inr (reqInfo, login), w1) ->
  Error login = None ->
  IdentityMacaroon login = [] ->
  Wait p w s = (Panic "index out of range", withWorld w1 s).
Proof.
  intros Hid Hpw Herr Hms. unfold Wait.
  rewrite (proj2 (String.eqb_neq _ _) Hid).
  unfold bind at 1. unfold calls at 1. rewrite Hpw, Herr, Hms. reflexivity.
Qed.

(** C6 (amended).  [DischargeTokenForUser] first looks the user up: an
    error of the lookup is returned under the message "cannot get
    identity", keeping the cause [ErrNotFound] when it has that cause
    and no cause otherwise.  When the user exists the oven is asked for
    a macaroon for [LoginOp] with the declared username, expiring 6
    hours from now; the macaroon is returned, and an error of the oven
    is returned under the message "cannot create discharge token" with
    its cause kept. *)
Theorem DischargeTokenForUser_outcome (p : Params)
    (r : dischargeTokenForUserRequest) (s : State W) :
  let expiry := time_Now (world s) + 6 * Hour in
  let version := RequestVersion (pRequest p) in
  (forall err, store_GetIdentity (Username r) (world s) = Some err ->
     DischargeTokenForUser p r s =
       (Fail (Err "cannot get identity" (Some err)
                (if Is params.ErrNotFound (Cause err)
                 then Some params.ErrNotFound else None)), s) /\
     (Cause err = params.ErrNotFound ->
      errorCode (NoteMask err "cannot get identity" [Is params.ErrNotFound])
      = Some "not found")) /\
  (store_GetIdentity (Username r) (world s) = None ->
   forall w',
     (Oven_mint version expiry [UserDeclaration (Username r)] [LoginOp]
                (world s) = (None, w') ->
      DischargeTokenForUser p r s =
        (Ok (mkTokenResponse
               (mkBakeryMacaroon version [LoginOp]
                  [TimeBeforeCaveat expiry; UserDeclaration (Username r)])),
         withWorld w' s)) /\
     (forall err,
        Oven_mint version expiry [UserDeclaration (Username r)] [LoginOp]
                  (world s) = (Some err, w') ->
        DischargeTokenForUser p r s =
          (Fail (Err "cannot create discharge token" (Some err)
                   (Some (Cause err))), withWorld w' s))).
Proof.
  intros expiry version. split.
  - intros err Hget. split.
    + unfold DischargeTokenForUser. unfold bind at 1. unfold reads at 1.
      rewrite Hget. unfold fail, NoteMask.
      cbv beta iota delta [existsb]. rewrite orb_false_r.
      destruct (Is params.ErrNotFound (Cause err)) eqn:E; [|reflexivity].
      rewrite (Is_ErrorCode_true _ _ E). reflexivity.
    + intros Hc. unfold errorCode.
      change params.ErrNotFound with (ErrorCode "not found") in *.
      rewrite (Cause_NoteMask_passes err "cannot get identity" "not found" Hc).
      reflexivity.
  - intros Hget w'.
    split.
    + intros Hmint. unfold DischargeTokenForUser.
      unfold bind at 1. unfold reads at 1. rewrite Hget.
      cbv beta iota delta [bind reads orReturn Oven_NewMacaroon calls ret fail
                             dischargeTokenDuration].
      fold version. fold expiry. rewrite Hmint. reflexivity.
    + intros err Hmint. unfold DischargeTokenForUser.
      unfold bind at 1. unfold reads at 1. rewrite Hget.
      cbv beta iota delta [bind reads orReturn Oven_NewMacaroon calls ret fail
                             dischargeTokenDuration].
      fold version. fold expiry. rewrite Hmint. reflexivity.
Qed.

End HandlerProofs.

(** ** Properties of the routing fallbacks *)

Section ServerProofs.
Variable pathMatches : string -> string -> bool.






End ServerProofs.

(** ** Runs on the in-memory implementation: the results *)

Import Mem Runs.

(** The admin asks for a discharge for [alice], who exists: the two
    caveats declare [alice]. *)
Lemma is_authenticated_user_caveats_witness :
  fst (checkThirdPartyCaveat (adminFor "alice")
         (caveatInfo "is-authenticated-user") state0) =
  Ok [UserDeclaration "alice"; TimeBeforeCaveat (1000 + 24 * Hour)].
Proof.
  etransitivity.
  - apply (is_authenticated_user_caveats (adminFor "alice")
             (caveatInfo "is-authenticated-user") state0 adminInfo "").
    + reflexivity.
    + reflexivity.
    + right. reflexivity.
  - vm_compute. reflexivity.
Defined.

(** C1, as stated, fails: the admin is authorized, the condition is
    [is-authenticated-user], but the named user [bob] is not in the
    store and the call returns an error instead of the two caveats. *)
Lemma is_authenticated_user_missing_named_user :
  ~ (checkers_ParseCaveat (ciCondition (caveatInfo "is-authenticated-user"))
       = inr ("is-authenticated-user", "") ->
     store_Authorize (adminFor "bob") (requiredOp (adminFor "bob"))
                     (world state0) = inr adminInfo ->
     fst (checkThirdPartyCaveat (adminFor "bob")
            (caveatInfo "is-authenticated-user") state0) =
     Ok [UserDeclaration "bob";
         TimeBeforeCaveat (time_Now (world state0) + 24 * Hour)]).
Proof.
  intros Hclaim. specialize (Hclaim ltac:(reflexivity) ltac:(reflexivity)).
  vm_compute in Hclaim. discriminate Hclaim.
Qed.

(** The anonymous request is told to log in; the rendezvous [wait-0]
    holds the caveat, its id, its condition and the origin. *)
Lemma authorization_failure_needs_login_witness :
  fst (checkThirdPartyCaveat anonymous (caveatInfo "is-authenticated-user")
         state0) =
  Fail (InteractionRequiredError
          "https://idm.example/v1/login?waitid=wait-0"
          "https://idm.example/v1/wait?waitid=wait-0"
          (Other "no identity macaroon") 2) /\
  rendezvous (world (snd (checkThirdPartyCaveat anonymous
                            (caveatInfo "is-authenticated-user") state0)))
    !! "wait-0" =
  Some (mkEntry (mkRequestInfo "is-authenticated-user" "caveat-id"
                               "is-authenticated-user" "https://a.example")
                None).
Proof.
  rewrite (authorization_failure_needs_login (H:=services) anonymous
             (caveatInfo "is-authenticated-user") state0
             (Other "no identity macaroon") ltac:(reflexivity)).
  split; vm_compute; reflexivity.
Defined.

(** C2, as stated, fails: with the place out of order no rendezvous is
    made and the error is not the interaction-required error. *)
Lemma authorization_failure_place_down :
  ~ (store_Authorize anonymous (requiredOp anonymous) (world placeDown)
       = inl (Other "no identity macaroon") ->
     exists waitId,
       fst (checkThirdPartyCaveat anonymous
              (caveatInfo "is-authenticated-user") placeDown) =
       Fail (InteractionRequiredError
               (serviceURL ("/v1/login?waitid=" +:+ waitId))
               (serviceURL ("/v1/wait?waitid=" +:+ waitId))
               (Other "no identity macaroon") (RequestVersion anonymous))).
Proof.
  intros Hclaim. destruct (Hclaim ltac:(reflexivity)) as [waitId Hw].
  vm_compute in Hw. discriminate Hw.
Qed.


(** The same rendezvous waited for from another origin: the restricted
    identity macaroon does not authorize the request. *)
Example Wait_from_other_origin_fails :
  exists err,
    fst (Wait (waitFrom "https://b.example") (mkWaitRequest "wait-0")
              (afterLogin aliceLogin)) = Fail err.
Proof. eexists. vm_compute. reflexivity. Qed.

(** The admin asks for a discharge for [bob], who is missing, and for
    [alice], who exists. *)
Lemma checkThirdPartyCaveat_discharge_for_user_witness :
  errorCode_of_outcome
    (fst (checkThirdPartyCaveat (adminFor "bob")
            (caveatInfo "is-authenticated-user") state0)) = Some "not found" /\
  checkThirdPartyCaveat (adminFor "alice") (caveatInfo "is-member-of ops")
                        state0 =
  checkCondition (store_Identity "alice") "alice"
                 (caveatInfo "is-member-of ops")
                 (logged (LogAuthorized DischargeForOp "admin") state0).
Proof.
  split.
  - destruct (checkThirdPartyCaveat_discharge_for_user (H:=services) (adminFor "bob")
                (caveatInfo "is-authenticated-user") state0) as [_ Hnamed].
    destruct (Hnamed ltac:(discriminate)) as [_ Hauth].
    destruct (Hauth adminInfo ltac:(reflexivity)) as [Hmissing _].
    destruct (Hmissing (WithCausef None params.ErrNotFound "user not found")
                ltac:(reflexivity)) as [Hrun _].
    rewrite Hrun. reflexivity.
  - destruct (checkThirdPartyCaveat_discharge_for_user (H:=services) (adminFor "alice")
                (caveatInfo "is-member-of ops") state0) as [_ Hnamed].
    destruct (Hnamed ltac:(discriminate)) as [_ Hauth].
    destruct (Hauth adminInfo ltac:(reflexivity)) as [_ Hfound].
    exact (Hfound ltac:(reflexivity)).
Defined.



(** The member [alice] gets a discharge with no caveats. *)
Example is_member_of_member :
  fst (checkThirdPartyCaveat (withIdentity "alice")
         (caveatInfo "is-member-of ops sre") state0) = Ok [].
Proof. vm_compute. reflexivity. Qed.

(** A discharge token for [alice], and the answer for [dave], who is
    not in the store. *)
Lemma DischargeTokenForUser_outcome_witness :
  fst (DischargeTokenForUser tokenParams (tokenRequest "alice") state0) =
    Ok (mkTokenResponse
          (mkBakeryMacaroon 2 [LoginOp]
             [TimeBeforeCaveat (1000 + 6 * Hour); UserDeclaration "alice"])) /\
  errorCode_of_outcome
    (fst (DischargeTokenForUser tokenParams (tokenRequest "dave") state0)) =
    Some "not found".
Proof.
  split.
  - destruct (DischargeTokenForUser_outcome (H:=services) tokenParams
                (tokenRequest "alice") state0) as [_ Hfound].
    destruct (Hfound ltac:(reflexivity) world0) as [Hminted _].
    rewrite (Hminted ltac:(reflexivity)). reflexivity.
  - destruct (DischargeTokenForUser_outcome (H:=services) tokenParams
                (tokenRequest "dave") state0) as [Hmissing _].
    destruct (Hmissing (WithCausef None params.ErrNotFound "user not found")
                ltac:(reflexivity)) as [Hrun _].
    rewrite Hrun. reflexivity.
Defined.

(** C6, as stated, fails: with the store out of order the lookup fails
    with an error that is not [ErrNotFound], and the error returned
    does not have the message "cannot create discharge token". *)
Lemma DischargeTokenForUser_lookup_error_message :
  ~ (store_GetIdentity "alice" (world storeDown)
       = Some (Other "connection refused") ->
     Cause (Other "connection refused") <> params.ErrNotFound ->
     exists underlying cause,
       fst (DischargeTokenForUser tokenParams (tokenRequest "alice") storeDown)
       = Fail (Err "cannot create discharge token" underlying cause)).
Proof.
  intros Hclaim.
  destruct (Hclaim ltac:(reflexivity) ltac:(discriminate))
    as [underlying [cause Hrun]].
  vm_compute in Hrun. discriminate Hrun.
Qed.



(** The admin is not in the store: the update of its last discharge
    time fails, the failure is logged and the caveats are returned. *)
Lemma discharge_time_update_never_fails_witness :
  fst (checkThirdPartyCaveat adminSelf (caveatInfo "is-authenticated-user")
         state0) =
    Ok [UserDeclaration "admin"; TimeBeforeCaveat (1000 + 24 * Hour)] /\
  log (snd (checkThirdPartyCaveat adminSelf
              (caveatInfo "is-authenticated-user") state0)) =
    [LogAuthorized LoginOp "admin";
     LogUpdateFailed (WithCausef None params.ErrNotFound "user not found")].
Proof.
  rewrite (discharge_time_update_never_fails (H:=services) adminSelf
             (caveatInfo "is-authenticated-user") state0
             (logged (LogAuthorized LoginOp "admin") state0) adminInfo
             "is-authenticated-user" ""
             [UserDeclaration "admin"; TimeBeforeCaveat (1000 + 24 * Hour)]
             ltac:(reflexivity) ltac:(reflexivity)
             ltac:(left; reflexivity) ltac:(reflexivity)).
  split; reflexivity.
Defined.

(** [alice] is in the store: her last discharge time is set. *)
Example discharge_time_recorded :
  docLastDischarge <$>
    identities (world (snd (checkThirdPartyCaveat (withIdentity "alice")
                              (caveatInfo "is-authenticated-user") state0)))
      !! "alice" = Some (Some 1000).
Proof. vm_compute. reflexivity. Qed.


(** A login result without any identity macaroon makes [Wait] panic. *)
Lemma Wait_panics_on_empty_identity_macaroon_witness :
  fst (Wait (waitFrom "https://a.example") (mkWaitRequest "wait-0")
            (afterLogin emptyLogin)) = Panic "index out of range".
Proof.
  rewrite (Wait_panics_on_empty_identity_macaroon (H:=services)
             (waitFrom "https://a.example") (mkWaitRequest "wait-0")
             (afterLogin emptyLogin)
             (mkRequestInfo "is-authenticated-user" "caveat-id"
                            "is-authenticated-user" "https://a.example")
             emptyLogin
             (mkWorld (identities world0) ∅ 1000 None None None)
             ltac:(discriminate) ltac:(vm_compute; reflexivity)
             ltac:(reflexivity) ltac:(reflexivity)).
  reflexivity.
Defined.

(** ** Further properties of [checkThirdPartyCaveat] *)

Section MoreCheckProofs.
Context {W : Type} `{Services W}.

(** The dispatch on the condition reads the world and leaves the state
    as it is. *)
Lemma dispatchCondition_state (identity : Identity W)
    (dfu cond args : string) (s : State W) :
  snd (dispatchCondition identity dfu cond args s) = s.
Proof.
  unfold dispatchCondition.
  destruct (String.eqb cond "is-authenticated-user"); [reflexivity|].
  destruct (String.eqb cond "is-member-of"); [|reflexivity].
  destruct (Allow identity) as [allow|]; [|reflexivity].
  cbv beta iota delta [bind reads ret fail].
  destruct (allow (Fields args) (world s)) as [err|[|]]; reflexivity.
Qed.


(** [checkCondition] either returns the caveats of a successful
    dispatch, after the update of the discharge time, or stops without
    any change. *)
Lemma checkCondition_cases (identity : Identity W) (dfu : string)
    (ci : ThirdPartyCaveatInfo) (s s' : State W) (o : Outcome (list Caveat)) :
  checkCondition identity dfu ci s = (o, s') ->
  (exists cavs cond args,
     o = Ok cavs /\
     checkers_ParseCaveat (ciCondition ci) = inr (cond, args) /\
     dispatchCondition identity dfu cond args s = (Ok cavs, s) /\
     s' = snd (updateDischargeTime (Id identity) s)) \/
  ((forall cavs, o <> Ok cavs) /\ s' = s).
Proof.
  destruct (checkers_ParseCaveat (ciCondition ci)) as [err|[cond args]] eqn:Hp.
  - unfold checkCondition. rewrite Hp. unfold fail. intros Hc.
    injection Hc as Ho Hs. right. split; [|congruence].
    intros cavs. rewrite <- Ho. discriminate.
  - rewrite (checkCondition_parsed _ _ _ _ _ _ Hp).
    pose proof (dispatchCondition_state identity dfu cond args s) as Hst.
    destruct (dispatchCondition identity dfu cond args s) as [[cavs|e|m] s1] eqn:Hd;
      simpl in Hst; subst s1.
    + rewrite updateDischargeTime_returns. intros Hc.
      injection Hc as Ho Hs. left. exists cavs, cond, args.
      split; [congruence|]. split; [reflexivity|]. split; [exact Hd|].
      simpl. symmetry. exact Hs.
    + intros Hc. injection Hc as Ho Hs. right. split; [|congruence].
      intros cavs. rewrite <- Ho. discriminate.
    + intros Hc. injection Hc as Ho Hs. right. split; [|congruence].
      intros cavs. rewrite <- Ho. discriminate.
Qed.

(** Without authorization the call fails, after asking the place for a
    rendezvous. *)
Lemma checkThirdPartyCaveat_unauthorized (req : Request)
    (ci : ThirdPartyCaveatInfo) (s : State W) (why : error) :
  store_Authorize req (requiredOp req) (world s) = inl why ->
  exists err,
    checkThirdPartyCaveat req ci s =
    (Fail err,
     withWorld (snd (place_NewRendezvous (requestInfoOf req ci) (world s))) s).
Proof.
  intros Hauth. unfold checkThirdPartyCaveat.
  unfold requiredOp, dischargeForUserOf in Hauth.
  unfold bind at 1. unfold reads at 1. rewrite Hauth.
  cbv beta delta [bind needLoginError calls ret fail requestInfoOf withWorld].
  match goal with
  | |- context [place_NewRendezvous ?info ?w] =>
      destruct (place_NewRendezvous info w) as [[perr | waitId] w']
  end; eexists; reflexivity.
Qed.

(** With authorization, a named user who cannot be looked up stops the
    call. *)
Lemma checkThirdPartyCaveat_lookup_failed (req : Request)
    (ci : ThirdPartyCaveatInfo) (s : State W) (authInfo : AuthInfo W)
    (err : error) :
  store_Authorize req (requiredOp req) (world s) = inr authInfo ->
  dischargeForUserOf req <> "" ->
  store_GetIdentity (dischargeForUserOf req) (world s) = Some err ->
  checkThirdPartyCaveat req ci s =
  (Fail (Mask err [Is params.ErrNotFound]), authorizedState req authInfo s).
Proof.
  intros Hauth Hne Hget.
  unfold checkThirdPartyCaveat, authorizedState, logged, requiredOp,
    dischargeForUserOf in *.
  rewrite (string_eqb_false _ _ Hne) in *.
  unfold bind at 1. unfold reads at 1. rewrite Hauth.
  unfold bind at 1. unfold Infof at 1.
  unfold bind at 1. unfold reads at 1. simpl. rewrite Hget. reflexivity.
Qed.

(** Whether the named user, if any, is in the store. *)
Lemma namedUserExists_dec (req : Request) (w : W) :
  namedUserExists req w \/
  (dischargeForUserOf req <> "" /\
   exists err, store_GetIdentity (dischargeForUserOf req) w = Some err).
Proof.
  unfold namedUserExists.
  destruct (String.eqb (dischargeForUserOf req) "") eqn:E.
  - apply String.eqb_eq in E. left. left. exact E.
  - apply String.eqb_neq in E.
    destruct (store_GetIdentity (dischargeForUserOf req) w) as [err|] eqn:Hg.
    + right. split; [exact E|]. exists err. reflexivity.
    + left. right. reflexivity.
Qed.

(** The state after the last discharge time of an identity has been
    set, or has failed to be set. *)
Lemma authorizedState_world (req : Request) (authInfo : AuthInfo W)
    (s : State W) :
  world (authorizedState req authInfo s) = world s.
Proof. reflexivity. Qed.

(** X1.  A call that returns caveats was authorized for the operation
    the request requires, the user named by [discharge-for-user], if
    any, is in the store, and the store has been asked to set the last
    discharge time of the identity the discharge is made for. *)
Theorem discharge_requires_authorization (req : Request)
    (ci : ThirdPartyCaveatInfo) (s s' : State W) (cavs : list Caveat) :
  checkThirdPartyCaveat req ci s = (Ok cavs, s') ->
  exists authInfo,
    store_Authorize req (requiredOp req) (world s) = inr authInfo /\
    namedUserExists req (world s) /\
    world s' =
    snd (store_UpdateIdentity (Id (dischargeIdentity req authInfo))
           (SetLastDischarge (time_Now (world s))) (world s)).
Proof.
  intros Hrun.
  destruct (store_Authorize req (requiredOp req) (world s))
    as [why|authInfo] eqn:Hauth.
  - destruct (checkThirdPartyCaveat_unauthorized req ci s why Hauth) as [e He].
    rewrite He in Hrun. discriminate.
  - exists authInfo. split; [reflexivity|].
    destruct (namedUserExists_dec req (world s)) as [Hex|[Hne [err Hget]]].
    + split; [exact Hex|].
      rewrite (checkThirdPartyCaveat_authorized req ci s authInfo Hauth Hex)
        in Hrun.
      apply checkCondition_cases in Hrun
        as [(cavs' & cond & args & _ & _ & _ & Hs)|[Hno _]].
      * rewrite Hs, updateDischargeTime_returns. reflexivity.
      * contradiction (Hno cavs). reflexivity.
    + rewrite (checkThirdPartyCaveat_lookup_failed req ci s authInfo err
                 Hauth Hne Hget) in Hrun. discriminate.
Qed.




End MoreCheckProofs.

Section DispatchEdges.
Context {W : Type} `{Services W}.


(** X6.  When the membership check itself fails, the call fails with
    "cannot check group membership" and the cause of the error is
    masked: whatever code the error of [Allow] had, the error returned
    has none. *)
Theorem membership_error_is_masked (req : Request)
    (ci : ThirdPartyCaveatInfo) (s : State W) (authInfo : AuthInfo W)
    (args : string) (allow : list string -> W -> error + bool) (err : error) :
  checkers_ParseCaveat (ciCondition ci) = inr ("is-member-of", args) ->
  store_Authorize req (requiredOp req) (world s) = inr authInfo ->
  namedUserExists req (world s) ->
  Allow (dischargeIdentity req authInfo) = Some allow ->
  allow (Fields args) (world s) = inl err ->
  checkThirdPartyCaveat req ci s =
    (Fail (Err "cannot check group membership" (Some err) None),
     authorizedState req authInfo s) /\
  errorCode (Err "cannot check group membership" (Some err) None) = None.
Proof.
  intros Hp Hauth Hex Hacl Hallow.
  rewrite (checkThirdPartyCaveat_authorized req ci s authInfo Hauth Hex).
  rewrite (checkCondition_parsed _ _ _ _ _ _ Hp).
  unfold dispatchCondition.
  change (String.eqb "is-member-of" "is-authenticated-user") with false.
  rewrite String.eqb_refl. cbv iota. rewrite Hacl.
  cbv beta iota delta [bind reads ret fail].
  change (world (authorizedState req authInfo s)) with (world s).
  rewrite Hallow. split; reflexivity.
Qed.

(** X7.  For the condition [is-member-of], an identity that does not
    implement [bakery.ACLIdentity] makes the call panic on the type
    assertion: it returns neither caveats nor an error, and the store
    is not updated. *)
Theorem membership_of_plain_identity_panics (req : Request)
    (ci : ThirdPartyCaveatInfo) (s : State W) (authInfo : AuthInfo W)
    (args : string) :
  checkers_ParseCaveat (ciCondition ci) = inr ("is-member-of", args) ->
  store_Authorize req (requiredOp req) (world s) = inr authInfo ->
  namedUserExists req (world s) ->
  Allow (dischargeIdentity req authInfo) = None ->
  exists msg,
    checkThirdPartyCaveat req ci s =
    (Panic msg, authorizedState req authInfo s).
Proof.
  intros Hp Hauth Hex Hacl.
  rewrite (checkThirdPartyCaveat_authorized req ci s authInfo Hauth Hex).
  rewrite (checkCondition_parsed _ _ _ _ _ _ Hp).
  unfold dispatchCondition.
  change (String.eqb "is-member-of" "is-authenticated-user") with false.
  rewrite String.eqb_refl. cbv iota. rewrite Hacl.
  eexists. reflexivity.
Qed.

End DispatchEdges.

(** ** Further properties of [Wait] and [DischargeTokenForUser] *)

Section MoreHandlerProofs.
Context {W : Type} `{Services W}.

(** X8.  [Wait] with an empty wait id fails with the code
    [bad request] before the place is consulted: no rendezvous is
    consumed and nothing is changed. *)
Theorem Wait_empty_id_bad_request (p : Params) (w : waitRequest)
    (s : State W) :
  WaitID w = "" ->
  exists failure,
    Wait p w s = (Fail failure, s) /\
    errorCode failure = Some "bad request".
Proof.
  intros Hid. unfold Wait. rewrite Hid. simpl String.eqb. cbv iota.
  eexists. split; reflexivity.
Qed.

(** X9.  An error of the place is returned as "cannot wait" with its
    cause masked: whatever code the place gave it, the error [Wait]
    returns has none. *)
Theorem Wait_place_error_is_masked (p : Params) (w : waitRequest)
    (s : State W) (err : error) (w1 : W) :
  WaitID w <> "" ->
  place_Wait (WaitID w) (world s) = (inl err, w1) ->
  Wait p w s = (Fail (Err "cannot wait" (Some err) None), withWorld w1 s) /\
  errorCode (Err "cannot wait" (Some err) None) = None.
Proof.
  intros Hid Hpw. unfold Wait.
  rewrite (proj2 (String.eqb_neq _ _) Hid).
  unfold bind at 1. unfold calls at 1. rewrite Hpw. split; reflexivity.
Qed.

(** X10.  A login that failed makes [Wait] fail with "login failed",
    keeping the cause of the login error, hence its code; no discharge
    is attempted and no cookie is set. *)
Theorem Wait_login_error_keeps_cause (p : Params) (w : waitRequest)
    (s : State W) (reqInfo : dischargeRequestInfo) (login : loginInfo)
    (err : error) (w1 : W) :
  WaitID w <> "" ->
  place_Wait (WaitID w) (world s) = (inr (reqInfo, login), w1) ->
  Error login = Some err ->
  exists failure,
    Wait p w s = (Fail failure, withWorld w1 s) /\
    Cause failure = Cause err /\
    errorCode failure = errorCode err.
Proof.
  intros Hid Hpw Herr. unfold Wait.
  rewrite (proj2 (String.eqb_neq _ _) Hid).
  unfold bind at 1. unfold calls at 1. rewrite Hpw, Herr.
  eexists. split; [reflexivity|]. split; reflexivity.
Qed.

(** X11.  When the discharge fails, [Wait] fails with "cannot
    discharge" and the cause of that failure, so that an
    interaction-required error of the checker reaches the client as
    such; [Wait] then sets no cookie on the response. *)
Theorem Wait_discharge_error_keeps_cause (p : Params) (w : waitRequest)
    (s s2 : State W) (reqInfo : dischargeRequestInfo) (login : loginInfo)
    (m0 : Macaroon) (rest : list Macaroon) (w1 : W) (err : error) :
  WaitID w <> "" ->
  place_Wait (WaitID w) (world s) = (inr (reqInfo, login), w1) ->
  Error login = None ->
  IdentityMacaroon login = m0 :: rest ->
  let restricted :=
    mkMacaroon (macId m0)
               (macCaveats m0 ++ [originCondition (riOrigin reqInfo)]) in
  Macaroon_addCaveatError m0 (originCondition (riOrigin reqInfo)) = None ->
  NewCookie_error (restricted :: rest) = None ->
  bakery_Discharge (riCaveatId reqInfo) (riCaveat reqInfo) Oven_Key
    (checkThirdPartyCaveat
       (AddCookie (pRequest p)
          (mkCookie "macaroon-identity" "" (restricted :: rest))))
    (withWorld w1 s) = (Fail err, s2) ->
  exists failure,
    Wait p w s = (Fail failure, s2) /\
    Cause failure = Cause err.
Proof.
  intros Hid Hpw Herr Hms restricted Hadd Hcookie Hd. unfold Wait.
  rewrite (proj2 (String.eqb_neq _ _) Hid).
  unfold bind at 1. unfold calls at 1. rewrite Hpw, Herr, Hms.
  unfold AddFirstPartyCaveat, NewCookie.
  unfold originCondition in Hadd. rewrite Hadd.
  fold (originCondition (riOrigin reqInfo)). fold restricted.
  rewrite Hcookie.
  cbv beta iota delta [bind orReturn SetCookie ret cookiePath cookieValue
                         cookieName].
  unfold withWorld in Hd. rewrite Hd.
  eexists. split; reflexivity.
Qed.

(** X12.  A discharge token is only ever returned for a user the store
    knows; it is bound to [LoginOp] alone, declares exactly the
    requested username and expires 6 hours after the time of the
    call. *)
Theorem DischargeTokenForUser_token (p : Params)
    (r : dischargeTokenForUserRequest) (s s' : State W)
    (resp : dischargeTokenForUserResponse) :
  DischargeTokenForUser p r s = (Ok resp, s') ->
  store_GetIdentity (Username r) (world s) = None /\
  bmOps (DischargeToken resp) = [LoginOp] /\
  bmCaveats (DischargeToken resp) =
    [TimeBeforeCaveat (time_Now (world s) + 6 * Hour);
     UserDeclaration (Username r)] /\
  bmVersion (DischargeToken resp) = RequestVersion (pRequest p).
Proof.
  unfold DischargeTokenForUser. unfold bind at 1. unfold reads at 1.
  destruct (store_GetIdentity (Username r) (world s)) as [err|];
    [discriminate|].
  cbv beta iota delta [bind reads orReturn Oven_NewMacaroon calls ret fail
                         dischargeTokenDuration].
  match goal with
  | |- context [Oven_mint ?v ?e ?c ?o ?w0] =>
      destruct (Oven_mint v e c o w0) as [[merr|] w']
  end; [discriminate|].
  intros Hrun. injection Hrun as Hresp _. subst resp.
  split; [reflexivity|]. split; [reflexivity|]. split; reflexivity.
Qed.

End MoreHandlerProofs.

(** ** Further properties of the server shell *)

Section MoreServerProofs.
Variable pathMatches : string -> string -> bool.



(** X14.  On a server made by [New], every OPTIONS request whose path
    the catch-all route matches is answered by the [options] handler,
    whatever routes the API versions registered. *)
Theorem options_always_handled (handlers : list Route) (req : Request) :
  Method req = "OPTIONS" ->
  pathMatches "/*path" (URLPath req) = true ->
  snd (ServeHTTP pathMatches (New handlers) req) = Handled "options".
Proof.
  intros Hm Hp. unfold ServeHTTP, Router_ServeHTTP, New, Lookup. simpl.
  rewrite Hm, Hp. reflexivity.
Qed.

End MoreServerProofs.

(** ** Properties of the construction of the server *)

Section ConstructionProofs.
Variable PoolT : Type.
Variable store_NewPool : bool -> ServerParams -> error + PoolT.
Variable bakery_GenerateKey : error + string.
Variable conflicts : list Route -> Route -> bool.

Lemma registerHandlers_Ok (handlers routes routes' : list Route) :
  registerHandlers conflicts routes handlers = Ok routes' ->
  routes' = (routes ++ handlers)%list.
Proof.
  revert routes. induction handlers as [|h rest IH]; intros routes; simpl.
  - intros Hr. injection Hr as Hr. rewrite app_nil_r. congruence.
  - unfold router_Handle. destruct (conflicts routes h); [discriminate|].
    intros Hr. rewrite (IH _ Hr), <- app_assoc. reflexivity.
Qed.

Lemma registerVersions_Ok (hp : HandlerParams PoolT)
    (versions : list (string * NewAPIHandlerFunc PoolT))
    (routes routes' : list Route) :
  registerVersions PoolT conflicts hp routes versions = Ok routes' ->
  exists handlerss,
    Forall2 (fun v handlers => snd v hp = inr handlers) versions handlerss /\
    routes' = (routes ++ concat handlerss)%list.
Proof.
  revert routes. induction versions as [|[name newAPI] rest IH];
    intros routes; simpl.
  - intros Hr. injection Hr as Hr. exists []. split; [constructor|].
    simpl. rewrite app_nil_r. congruence.
  - destruct (newAPI hp) as [err|handlers] eqn:Hapi; [discriminate|].
    destruct (registerHandlers conflicts routes handlers) as [r1|e|m] eqn:Hreg;
      try discriminate.
    intros Hr. apply registerHandlers_Ok in Hreg. subst r1.
    destruct (IH _ Hr) as [hss [Hall Hroutes]].
    exists (handlers :: hss). split.
    + constructor; [exact Hapi | exact Hall].
    + simpl. rewrite Hroutes, <- app_assoc. reflexivity.
Qed.

(** What a successful [New] has done. *)
Lemma NewServer_Ok (sp : ServerParams)
    (versions : list (string * NewAPIHandlerFunc PoolT))
    (srv : Server) (pool : PoolT) :
  NewServer PoolT store_NewPool bakery_GenerateKey conflicts sp versions
    = Ok (srv, pool) ->
  versions <> [] /\
  store_NewPool (negb (String.eqb (spLaunchpad sp) "")) sp = inr pool /\
  exists hp handlerss,
    Forall2 (fun v handlers => snd v hp = inr handlers) versions handlerss /\
    srv = New (concat handlerss) /\
    hpPool hp = pool /\
    spKey (hpServerParams hp) <> None /\
    (spKey sp <> None -> hpServerParams hp = sp).
Proof.
  unfold NewServer. destruct versions as [|v rest]; [discriminate|].
  destruct (store_NewPool _ sp) as [perr|pool0]; [discriminate|].
  intros Hnew.
  assert (Hkey : exists sp',
            match spKey sp with
            | None => match bakery_GenerateKey with
                      | inl err => inl (Notef err "cannot generate key")
                      | inr key => inr (withKey sp key)
                      end
            | Some _ => inr sp
            end = inr sp' /\ spKey sp' <> None /\ (spKey sp <> None -> sp' = sp)).
  { destruct (spKey sp) as [k|] eqn:Hk.
    - exists sp. split; [reflexivity|]. split; [congruence|]. reflexivity.
    - destruct bakery_GenerateKey as [kerr|key]; [discriminate|].
      exists (withKey sp key). split; [reflexivity|]. split; [discriminate|].
      intros Hc. contradiction Hc. reflexivity. }
  destruct Hkey as [sp' [Hsp' [Hset Hsame]]]. rewrite Hsp' in Hnew.
  destruct (registerHandlers conflicts [] _) as [base|e|m] eqn:Hbase;
    try discriminate.
  apply registerHandlers_Ok in Hbase. simpl in Hbase. subst base.
  match type of Hnew with
  | context [registerVersions PoolT conflicts ?hp ?routes ?vs] =>
      destruct (registerVersions PoolT conflicts hp routes vs) as [routes'|e|m] eqn:Hreg;
        try discriminate;
      apply registerVersions_Ok in Hreg as [hss [Hall Hroutes]];
      injection Hnew as Hsrv Hpool;
      split; [discriminate|]; split; [congruence|];
      exists hp, hss
  end.
  split; [exact Hall|]. split.
  - rewrite <- Hsrv, Hroutes. reflexivity.
  - split; [exact Hpool|]. split; [exact Hset|]. exact Hsame.
Qed.


(** X16.  If one of the API versions cannot be created, [New] returns
    no server, wherever that version comes in the order the versions
    are ranged over. *)
Theorem NewServer_fails_with_a_failing_version (sp : ServerParams)
    (versions : list (string * NewAPIHandlerFunc PoolT))
    (name : string) (newAPI : NewAPIHandlerFunc PoolT) :
  In (name, newAPI) versions ->
  (forall hp, exists err, newAPI hp = inl err) ->
  forall result,
    NewServer PoolT store_NewPool bakery_GenerateKey conflicts sp versions
    <> Ok result.
Proof.
  intros Hin Hfails [srv pool] Hnew.
  apply NewServer_Ok in Hnew as (_ & _ & hp & hss & Hall & _).
  assert (Hone : exists handlers, newAPI hp = inr handlers).
  { clear Hfails. induction Hall as [|v hs vs hss' Hv Hrest IH].
    - contradiction Hin.
    - destruct Hin as [Hhere | Hlater].
      + subst v. exists hs. exact Hv.
      + apply IH. exact Hlater. }
  destruct Hone as [handlers Hok]. destruct (Hfails hp) as [err Herr].
  congruence.
Qed.

End ConstructionProofs.

(** ** Properties of the checker *)

Section CheckerProofs.
Context {W : Type} `{Services W}.
Variable Pool : Type.
Variable getHandler : Request -> string -> Pool -> option error * Pool.
Variable handler_Close : Pool -> Pool.

(** X17.  When no handler can be acquired, the checker fails with the
    cause of the acquisition error masked, so that the error has no
    code; the caveat is not checked: no rendezvous is made and nothing
    is logged or closed. *)
Theorem CheckThirdPartyCaveat_acquisition_error (req : Request)
    (ci : ThirdPartyCaveatInfo) (pool pool' : Pool) (s : State W)
    (err : error) :
  getHandler req (URLPath req) pool = (Some err, pool') ->
  exists failure,
    CheckThirdPartyCaveat Pool getHandler handler_Close req ci pool s =
      (Fail failure, s, pool') /\
    errorCode failure = None.
Proof.
  intros Hget. unfold CheckThirdPartyCaveat. rewrite Hget.
  eexists. split; reflexivity.
Qed.

(** X18.  When closing a handler gives back the session that acquiring
    it took, the checker leaves the pool as it found it on every path:
    when the check returns caveats, when it fails and when it panics;
    the outcome is that of [checkThirdPartyCaveat]. *)
Theorem CheckThirdPartyCaveat_returns_session (req : Request)
    (ci : ThirdPartyCaveatInfo) (pool pool' : Pool) (s : State W) :
  getHandler req (URLPath req) pool = (None, pool') ->
  handler_Close pool' = pool ->
  CheckThirdPartyCaveat Pool getHandler handler_Close req ci pool s =
  (checkThirdPartyCaveat req ci s, pool).
Proof.
  intros Hget Hclose. unfold CheckThirdPartyCaveat. rewrite Hget, Hclose.
  destruct (checkThirdPartyCaveat req ci s) as [o s']. reflexivity.
Qed.

End CheckerProofs.

(** ** Properties of [strings.Fields], as used on the groups of
    [is-member-of] *)


Lemma dropSpaces_clean (a : string) : anySpace a = false -> dropSpaces a = a.
Proof.
  induction a as [|c a IH]; simpl; [reflexivity|].
  intros Hs. apply orb_false_elim in Hs as [Hc Ha].
  rewrite Hc, (IH Ha). reflexivity.
Qed.





(** ** Properties of the relation hooks *)

(** X20.  The MongoDB hook writes a configuration only when the
    relation gives both a host name and a port, neither of them empty;
    the address is then host:port and the status is left alone.
    Otherwise it writes nothing and sets the status to waiting. *)
Theorem db_relation_changed_outcome (u : Charm.Unit) :
  (exists hostname port,
     Charm.relation_get "hostname" u = Some hostname /\
     Charm.relation_get "port" u = Some port /\
     hostname <> "" /\ port <> "" /\
     Charm.db_relation_changed u =
     Charm.mkUnit (Charm.relation u) (Charm.status u)
       (Charm.configs u ++ [Charm.MongoDB (hostname +:+ ":" +:+ port)])) \/
  ((Charm.relation_get "hostname" u = None \/
    Charm.relation_get "hostname" u = Some "" \/
    Charm.relation_get "port" u = None \/
    Charm.relation_get "port" u = Some "") /\
   Charm.db_relation_changed u =
   Charm.mkUnit (Charm.relation u)
     (Some ("waiting", "waiting for mongodb relation")) (Charm.configs u)).
Proof.
  unfold Charm.db_relation_changed, Charm.status_set,
    Charm.update_config_and_restart.
  destruct (Charm.relation_get "hostname" u) as [h|]; simpl.
  - destruct (String.eqb h "") eqn:Eh; simpl.
    + apply String.eqb_eq in Eh. subst h. right. split; [|reflexivity].
      right. left. reflexivity.
    + apply String.eqb_neq in Eh.
      destruct (Charm.relation_get "port" u) as [p|]; simpl.
      * destruct (String.eqb p "") eqn:Ep; simpl.
        -- apply String.eqb_eq in Ep. subst p. right. split; [|reflexivity].
           right. right. right. reflexivity.
        -- apply String.eqb_neq in Ep. left. exists h, p.
           repeat split; try assumption; reflexivity.
      * right. split; [|reflexivity]. right. right. left. reflexivity.
  - right. split; [|reflexivity]. left. reflexivity.
Qed.

(** X21.  The Postgres hook writes a configuration only when the
    relation gives a non-empty connection string for the master, and
    then writes exactly that string; otherwise it writes nothing and
    sets the status to waiting. *)
Theorem postgres_relation_changed_outcome (u : Charm.Unit) :
  (exists connection,
     Charm.relation_get "master" u = Some connection /\
     connection <> "" /\
     Charm.postgres_relation_changed u =
     Charm.mkUnit (Charm.relation u) (Charm.status u)
       (Charm.configs u ++ [Charm.Postgres connection])) \/
  ((Charm.relation_get "master" u = None \/
    Charm.relation_get "master" u = Some "") /\
   Charm.postgres_relation_changed u =
   Charm.mkUnit (Charm.relation u)
     (Some ("waiting", "waiting for postgres relation")) (Charm.configs u)).
Proof.
  unfold Charm.postgres_relation_changed, Charm.status_set,
    Charm.update_config_and_restart.
  destruct (Charm.relation_get "master" u) as [c|]; simpl.
  - destruct (String.eqb c "") eqn:Ec.
    + apply String.eqb_eq in Ec. subst c. right. split; [|reflexivity].
      right. reflexivity.
    + apply String.eqb_neq in Ec. left. exists c.
      repeat split; try assumption; reflexivity.
  - right. split; [|reflexivity]. left. reflexivity.
Qed.

(** ** Runs on the in-memory implementation: further results *)

Import MemShell.

(** [alice] asks for her own discharge: the request was authorized and
    her last discharge time is set. *)
Lemma discharge_requires_authorization_witness :
  exists authInfo,
    store_Authorize (withIdentity "alice") (requiredOp (withIdentity "alice"))
                    (world state0) = inr authInfo /\
    namedUserExists (withIdentity "alice") (world state0) /\
    world (snd (checkThirdPartyCaveat (withIdentity "alice")
                  (caveatInfo "is-authenticated-user") state0)) =
    snd (store_UpdateIdentity
           (Id (dischargeIdentity (withIdentity "alice") authInfo))
           (SetLastDischarge (time_Now (world state0))) (world state0)).
Proof.
  apply (discharge_requires_authorization (H:=services) (withIdentity "alice")
           (caveatInfo "is-authenticated-user") state0
           (snd (checkThirdPartyCaveat (withIdentity "alice")
                   (caveatInfo "is-authenticated-user") state0))
           [UserDeclaration "alice"; TimeBeforeCaveat (1000 + 24 * Hour)]).
  vm_compute. reflexivity.
Defined.





(** [carol] holds an identity macaroon but is no longer in the store:
    her groups cannot be resolved, and the not-found code of that
    error does not reach the client. *)
Lemma membership_error_is_masked_witness :
  checkThirdPartyCaveat (withIdentity "carol") (caveatInfo "is-member-of ops")
                        withoutCarol =
    (Fail (Err "cannot check group membership"
              (Some (WithCausef None params.ErrNotFound "user not found")) None),
     authorizedState (withIdentity "carol") (mkAuthInfo (identityOf "carol"))
                     withoutCarol) /\
  errorCode (Err "cannot check group membership"
               (Some (WithCausef None params.ErrNotFound "user not found")) None)
  = None.
Proof.
  apply (membership_error_is_masked (H:=services) (withIdentity "carol")
           (caveatInfo "is-member-of ops") withoutCarol
           (mkAuthInfo (identityOf "carol")) "ops"
           (fun acl w =>
              match identities w !! "carol" with
              | Some doc => inr (memberOfAny (docGroups doc) acl)
              | None => inl (WithCausef None params.ErrNotFound "user not found")
              end)).
  - reflexivity.
  - reflexivity.
  - left. reflexivity.
  - reflexivity.
  - reflexivity.
Defined.

(** With a store whose identities have no [Allow], the membership
    check of [alice] panics. *)
Lemma membership_of_plain_identity_panics_witness :
  exists msg,
    checkThirdPartyCaveat (H:=plainServices) (withIdentity "alice")
                          (caveatInfo "is-member-of ops") state0 =
    (Panic msg,
     authorizedState (H:=plainServices) (withIdentity "alice")
                     (mkAuthInfo (plainIdentity "alice")) state0).
Proof.
  apply (membership_of_plain_identity_panics (H:=plainServices)
           (withIdentity "alice") (caveatInfo "is-member-of ops") state0
           (mkAuthInfo (plainIdentity "alice")) "ops").
  - reflexivity.
  - reflexivity.
  - left. reflexivity.
  - reflexivity.
Defined.

(** A wait without a wait id. *)
Lemma Wait_empty_id_bad_request_witness :
  exists failure,
    Wait (waitFrom "https://a.example") (mkWaitRequest "")
         (stateAfter aliceLogin) = (Fail failure, stateAfter aliceLogin) /\
    errorCode failure = Some "bad request".
Proof.
  apply (Wait_empty_id_bad_request (H:=services) (waitFrom "https://a.example")
           (mkWaitRequest "") (stateAfter aliceLogin)).
  reflexivity.
Defined.

(** A wait for a rendezvous the place does not know: the [expired]
    code of the place does not reach the client. *)
Lemma Wait_place_error_is_masked_witness :
  Wait (waitFrom "https://a.example") (mkWaitRequest "wait-7") state0 =
    (Fail (Err "cannot wait" (Some (ErrorCode "expired")) None),
     withWorld world0 state0) /\
  errorCode (Err "cannot wait" (Some (ErrorCode "expired")) None) = None.
Proof.
  apply (Wait_place_error_is_masked (H:=services) (waitFrom "https://a.example")
           (mkWaitRequest "wait-7") state0 (ErrorCode "expired") world0).
  - discriminate.
  - reflexivity.
Defined.

(** A wait for a login that was refused: the code of the refusal
    reaches the client. *)
Lemma Wait_login_error_keeps_cause_witness :
  exists failure,
    fst (Wait (waitFrom "https://a.example") (mkWaitRequest "wait-0")
              (stateAfter refusedLogin)) = Fail failure /\
    errorCode failure = Some "unauthorized".
Proof.
  destruct (Wait_login_error_keeps_cause (H:=services)
              (waitFrom "https://a.example") (mkWaitRequest "wait-0")
              (stateAfter refusedLogin)
              (mkRequestInfo "is-authenticated-user" "caveat-id"
                             "is-authenticated-user" "https://a.example")
              refusedLogin (ErrorCode "unauthorized")
              (mkWorld (identities world0) ∅ 1000 None None None)
              ltac:(discriminate) ltac:(vm_compute; reflexivity)
              ltac:(reflexivity))
    as [failure [Hrun [_ Hcode]]].
  exists failure. rewrite Hrun. split; [reflexivity | exact Hcode].
Defined.

(** The wait from another origin: the inner check asks for a login
    again, and that error is the cause of the failure of [Wait]. *)
Lemma Wait_discharge_error_keeps_cause_witness :
  exists failure,
    fst (Wait (waitFrom "https://b.example") (mkWaitRequest "wait-0")
              (stateAfter aliceLogin)) = Fail failure /\
    Cause failure =
    InteractionRequiredError "https://idm.example/v1/login?waitid=wait-0"
                             "https://idm.example/v1/wait?waitid=wait-0"
                             (Other "verification failed: caveat not satisfied")
                             2.
Proof.
  destruct (Wait_discharge_error_keeps_cause (H:=services)
              (waitFrom "https://b.example") (mkWaitRequest "wait-0")
              (stateAfter aliceLogin)
              (snd (Wait (waitFrom "https://b.example") (mkWaitRequest "wait-0")
                         (stateAfter aliceLogin)))
              (mkRequestInfo "is-authenticated-user" "caveat-id"
                             "is-authenticated-user" "https://a.example")
              aliceLogin (identityMacaroon "alice") []
              (mkWorld (identities world0) ∅ 1000 None None None)
              (InteractionRequiredError
                 "https://idm.example/v1/login?waitid=wait-0"
                 "https://idm.example/v1/wait?waitid=wait-0"
                 (Other "verification failed: caveat not satisfied") 2)
              ltac:(discriminate) ltac:(vm_compute; reflexivity)
              ltac:(reflexivity) ltac:(reflexivity) ltac:(reflexivity)
              ltac:(reflexivity) ltac:(vm_compute; reflexivity))
    as [failure [Hrun Hcause]].
  exists failure. rewrite Hrun. split; [reflexivity | exact Hcause].
Defined.

(** The token for [alice]. *)
Lemma DischargeTokenForUser_token_witness :
  store_GetIdentity "alice" (world state0) = None /\
  bmOps (mkBakeryMacaroon 2 [LoginOp]
           [TimeBeforeCaveat (1000 + 6 * Hour); UserDeclaration "alice"])
    = [LoginOp] /\
  [TimeBeforeCaveat (1000 + 6 * Hour); UserDeclaration "alice"] =
    [TimeBeforeCaveat (time_Now (world state0) + 6 * Hour);
     UserDeclaration "alice"] /\
  2%nat = RequestVersion (pRequest tokenParams).
Proof.
  apply (DischargeTokenForUser_token (H:=services) tokenParams
           (tokenRequest "alice") state0 state0
           (mkTokenResponse
              (mkBakeryMacaroon 2 [LoginOp]
                 [TimeBeforeCaveat (1000 + 6 * Hour); UserDeclaration "alice"]))).
  vm_compute. reflexivity.
Defined.


(** [OPTIONS /v1/wait] is answered by [options]. *)
Lemma options_always_handled_witness :
  snd (ServeHTTP pathMatches
         (New [mkRoute "GET" "/v1/wait" "wait"])
         (request "OPTIONS" "/v1/wait" [] [])) = Handled "options".
Proof.
  apply (options_always_handled pathMatches [mkRoute "GET" "/v1/wait" "wait"]
           (request "OPTIONS" "/v1/wait" [] [])); reflexivity.
Defined.


(** With a version that cannot be created, there is no server,
    whichever version comes first. *)
Lemma NewServer_fails_with_a_failing_version_witness :
  (forall result, newServer [("v1", v1); ("v2", broken)] <> Ok result) /\
  (forall result, newServer [("v2", broken); ("v1", v1)] <> Ok result).
Proof.
  split.
  - apply (NewServer_fails_with_a_failing_version unit (fun _ _ => inr tt)
             (inr "generated-key") samePath serverParams
             [("v1", v1); ("v2", broken)] "v2" broken).
    + right. left. reflexivity.
    + intros hp. exists (Other "no such API"). reflexivity.
  - apply (NewServer_fails_with_a_failing_version unit (fun _ _ => inr tt)
             (inr "generated-key") samePath serverParams
             [("v2", broken); ("v1", v1)] "v2" broken).
    + left. reflexivity.
    + intros hp. exists (Other "no such API"). reflexivity.
Defined.

(** With no session left, the checker fails without a code. *)
Lemma CheckThirdPartyCaveat_acquisition_error_witness :
  exists failure,
    CheckThirdPartyCaveat Sessions acquire release anonymous
      (caveatInfo "is-authenticated-user") noneLeft state0 =
      (Fail failure, state0, noneLeft) /\
    errorCode failure = None.
Proof.
  apply (CheckThirdPartyCaveat_acquisition_error (H:=services) Sessions acquire
           release anonymous (caveatInfo "is-authenticated-user")
           noneLeft noneLeft state0
           (WithCausef None (ErrorCode "service unavailable")
              "too many mongo sessions in use")).
  reflexivity.
Defined.

(** With a session left, the checker gives it back, here after a check
    that failed. *)
Lemma CheckThirdPartyCaveat_returns_session_witness :
  CheckThirdPartyCaveat Sessions acquire release anonymous
    (caveatInfo "is-authenticated-user") oneLeft state0 =
  (checkThirdPartyCaveat anonymous (caveatInfo "is-authenticated-user") state0,
   oneLeft).
Proof.
  apply (CheckThirdPartyCaveat_returns_session (H:=services) Sessions acquire
           release anonymous (caveatInfo "is-authenticated-user")
           oneLeft (mkSessions 1 1) state0); reflexivity.
Defined.

(** The fields of a list of groups written with tabs and spaces. *)
Example Fields_of_groups :
  Fields (" ops" +:+ String (ascii_of_nat 9) " sre  ") = ["ops"; "sre"].
Proof. vm_compute. reflexivity. Qed.

(** The hooks on a related unit, and on one whose port is not set. *)
Example db_relation_changed_related :
  Charm.configs (Charm.db_relation_changed related) =
    [Charm.MongoDB "10.0.0.7:27017"] /\
  Charm.configs (Charm.postgres_relation_changed related) =
    [Charm.Postgres "host=10.0.0.8 dbname=idm"] /\
  Charm.db_relation_changed unrelated =
    Charm.mkUnit (Charm.relation unrelated)
      (Some ("waiting", "waiting for mongodb relation")) [] /\
  Charm.status (Charm.postgres_relation_changed unrelated) =
    Some ("waiting", "waiting for postgres relation").
Proof. vm_compute. repeat split; reflexivity. Qed.
